(** * The Pulsar Terraform provider: configuration and client registry

    A shallow embedding of [pulsar/provider.go]: the provider schema, the
    validation gate [validatePulsarConfig], the registry builder
    [providerConfigure] and the entry point installed as
    [ConfigureContextFunc].

    The code calls three external libraries.  Go's [net/url] and the
    defaulting rules of the Terraform plugin SDK are pure and are written
    out below; the backend constructor [pulsar.New] of pulsarctl is
    effectful and unknown, so it is a parameter of the development
    together with the world it acts on. *)

From Stdlib Require Import Ascii String NArith.
From stdpp Require Import gmap strings list.

Local Open Scope string_scope.
Local Open Scope list_scope.

(** ** Go errors *)

(** The error values that can flow through the provider.  [wrapError] is
    what [fmt.Errorf] builds for a format with one [%w] verb: it
    remembers the format and the wrapped error, and [Unwrap] gives the
    latter back. *)
Inductive error : Type :=
| errorString (s : string)
| fmtError (format arg : string)
| wrapError (format : string) (err : error)
| EscapeError (s : string)
| InvalidHostError (s : string)
| url_Error (Op URL : string) (Err : error).

Definition Unwrap (e : error) : option error :=
  match e with
  | wrapError _ err => Some err
  | url_Error _ _ err => Some err
  | _ => None
  end.

Definition fmt_Errorf (format : string) (err : error) : error :=
  wrapError format err.

(** ** Byte strings

    A Go string is a sequence of bytes, and so is a [string] here.  The
    functions of Go's [strings] package that [net/url] uses. *)
Module gostrings.

Definition byte (c : ascii) : N := N_of_ascii c.

Definition HasPrefix (s p : string) : bool := String.prefix p s.

Fixpoint Index (s sep : string) : option nat :=
  if String.prefix sep s then Some 0
  else match s with
       | EmptyString => None
       | String _ s' => S <$> Index s' sep
       end.

Fixpoint LastIndex (s sep : string) : option nat :=
  match s with
  | EmptyString => if String.prefix sep s then Some 0 else None
  | String _ s' =>
      match LastIndex s' sep with
      | Some i => Some (S i)
      | None => if String.prefix sep s then Some 0 else None
      end
  end.

Definition Contains (s sep : string) : bool :=
  match Index s sep with Some _ => true | None => false end.

(** [s[:i]] and [s[i:]] for [i <= len(s)]. *)
Definition upto (i : nat) (s : string) : string := String.substring 0 i s.
Definition from (i : nat) (s : string) : string :=
  String.substring i (String.length s - i) s.

Definition Cut (s sep : string) : string * string * bool :=
  match Index s sep with
  | Some i => (upto i s, from (i + String.length sep) s, true)
  | None => (s, "", false)
  end.

(** [strings.Count] for a separator of one byte. *)
Fixpoint CountByte (s : string) (c : ascii) : nat :=
  match s with
  | EmptyString => 0
  | String x s' => (if Ascii.eqb x c then 1 else 0) + CountByte s' c
  end.

Definition HasSuffix (s suffix : string) : bool :=
  (String.length suffix <=? String.length s)%nat
  && String.eqb (from (String.length s - String.length suffix) s) suffix.

Definition lower (c : ascii) : ascii :=
  if (65 <=? byte c)%N && (byte c <=? 90)%N
  then ascii_of_N (byte c + 32) else c.

Fixpoint ToLower (s : string) : string :=
  match s with
  | EmptyString => EmptyString
  | String c s' => String (lower c) (ToLower s')
  end.

End gostrings.

(** ** Go's [net/url]: which strings [url.Parse] rejects

    [validatePulsarConfig] keeps only the error of [url.Parse], so the
    functions below follow [net/url] (as in the Go releases 1.13 to 1.20)
    on their error result: [None] is Go's [nil].  The parsed [*URL] is
    dropped everywhere; the control flow that decides the error is kept
    as it is. *)
Module url.
Import gostrings.

Inductive encoding : Type :=
| encodePath
| encodePathSegment
| encodeHost
| encodeZone
| encodeUserPassword
| encodeQueryComponent
| encodeFragment.

(** [oneOf c set]: the byte [c] is one of the bytes of [set]. *)
Fixpoint oneOf (c : ascii) (set : string) : bool :=
  match set with
  | EmptyString => false
  | String x set' => Ascii.eqb c x || oneOf c set'
  end.

Definition between (lo hi : N) (c : ascii) : bool :=
  (lo <=? byte c)%N && (byte c <=? hi)%N.

Definition isLower := between 97 122.   (* 'a' .. 'z' *)
Definition isUpper := between 65 90.    (* 'A' .. 'Z' *)
Definition isDigit := between 48 57.    (* '0' .. '9' *)

Definition ishex (c : ascii) : bool :=
  isDigit c || between 97 102 c || between 65 70 c.

Definition unhex (c : ascii) : N :=
  if isDigit c then byte c - 48
  else if between 97 102 c then byte c - 97 + 10
  else if between 65 70 c then byte c - 65 + 10
  else 0.

Definition isHostMode (mode : encoding) : bool :=
  match mode with encodeHost | encodeZone => true | _ => false end.

(** [shouldEscape]; byte 34 is the double quote. *)
Definition shouldEscape (c : ascii) (mode : encoding) : bool :=
  if isLower c || isUpper c || isDigit c then false
  else if isHostMode mode
          && (oneOf c "!$&'()*+,;=:[]<>" || (byte c =? 34)%N) then false
  else if oneOf c "-_.~" then false
  else if oneOf c "$&+,/:;=?@"
          && match mode with
             | encodePath | encodePathSegment | encodeUserPassword
             | encodeQueryComponent | encodeFragment => true
             | _ => false
             end
  then match mode with
       | encodePath => Ascii.eqb c "?"
       | encodePathSegment => oneOf c "/;,?"
       | encodeUserPassword => oneOf c "@/?:"
       | encodeQueryComponent => true
       | _ => false
       end
  else if match mode with encodeFragment => oneOf c "!()*" | _ => false end
  then false
  else true.

(** The first pass of [unescape], the one that can fail: it checks that
    every [%] starts a well-formed escape and, in a host, that no byte
    needs escaping. *)
Fixpoint unescape (s : string) (mode : encoding) : option error :=
  match s with
  | EmptyString => None
  | String c s1 =>
      if Ascii.eqb c "%" then
        match s1 with
        | String a (String b s3) =>
            if negb (ishex a) || negb (ishex b)
            then Some (EscapeError (upto 3 s))
            else if match mode with encodeHost => true | _ => false end
                    && (unhex a <? 8)%N && negb (String.eqb (upto 3 s) "%25")
            then Some (EscapeError (upto 3 s))
            else if match mode with encodeZone => true | _ => false end
                    && negb (String.eqb (upto 3 s) "%25")
                    && negb (N.lor (N.shiftl (unhex a) 4) (unhex b) =? 32)%N
                    && shouldEscape
                         (ascii_of_N (N.lor (N.shiftl (unhex a) 4) (unhex b)))
                         encodeHost
            then Some (EscapeError (upto 3 s))
            else unescape s3 mode
        | _ => Some (EscapeError (upto 3 s))
        end
      else if Ascii.eqb c "+" then unescape s1 mode
      else if isHostMode mode && (byte c <? 128)%N && shouldEscape c encodeHost
      then Some (InvalidHostError (String c EmptyString))
      else unescape s1 mode
  end.

Definition setPath (p : string) : option error := unescape p encodePath.

Definition setFragment (f : string) : option error :=
  unescape f encodeFragment.

Fixpoint stringContainsCTLByte (s : string) : bool :=
  match s with
  | EmptyString => false
  | String b s' =>
      (byte b <? 32)%N || (byte b =? 127)%N || stringContainsCTLByte s'
  end.

(** The loop of [getScheme]: [s] is [rawURL[i:]]. *)
Fixpoint getScheme_from (i : nat) (s rawURL : string)
  : (string * string) + error :=
  match s with
  | EmptyString => inl ("", rawURL)
  | String c s' =>
      if isLower c || isUpper c then getScheme_from (S i) s' rawURL
      else if isDigit c || oneOf c "+-." then
        if (i =? 0)%nat then inl ("", rawURL)
        else getScheme_from (S i) s' rawURL
      else if Ascii.eqb c ":" then
        if (i =? 0)%nat then inr (errorString "missing protocol scheme")
        else inl (upto i rawURL, from (i + 1) rawURL)
      else inl ("", rawURL)
  end.

Definition getScheme (rawURL : string) : (string * string) + error :=
  getScheme_from 0 rawURL rawURL.

Fixpoint allDigits (s : string) : bool :=
  match s with
  | EmptyString => true
  | String b s' => isDigit b && allDigits s'
  end.

Definition validOptionalPort (port : string) : bool :=
  match port with
  | EmptyString => true
  | String c digits => Ascii.eqb c ":" && allDigits digits
  end.

(** A byte of [0x80] or more belongs to a rune outside the accepted
    set, so [validUserinfo] can be read byte by byte. *)
Fixpoint validUserinfo (s : string) : bool :=
  match s with
  | EmptyString => true
  | String r s' =>
      (isUpper r || isLower r || isDigit r || oneOf r "-._:~!$&'()*+,;=%@")
      && validUserinfo s'
  end.

Definition parseHost (host : string) : option error :=
  if HasPrefix host "[" then
    match LastIndex host "]" with
    | None => Some (errorString "missing ']' in host")
    | Some i =>
        let colonPort := from (i + 1) host in
        if negb (validOptionalPort colonPort)
        then Some (fmtError "invalid port %q after host" colonPort)
        else
          match Index (upto i host) "%25" with
          | Some zone =>
              match unescape (upto zone host) encodeHost with
              | Some err => Some err
              | None =>
                  match unescape (String.substring zone (i - zone) host)
                                 encodeZone with
                  | Some err => Some err
                  | None => unescape (from i host) encodeHost
                  end
              end
          | None => unescape host encodeHost
          end
    end
  else
    match LastIndex host ":" with
    | Some i =>
        let colonPort := from i host in
        if negb (validOptionalPort colonPort)
        then Some (fmtError "invalid port %q after host" colonPort)
        else unescape host encodeHost
    | None => unescape host encodeHost
    end.

Definition parseAuthority (authority : string) : option error :=
  let i := LastIndex authority "@" in
  match parseHost (match i with
                   | None => authority
                   | Some i => from (i + 1) authority
                   end) with
  | Some err => Some err
  | None =>
      match i with
      | None => None
      | Some i =>
          let userinfo := upto i authority in
          if negb (validUserinfo userinfo)
          then Some (errorString "net/url: invalid userinfo")
          else if negb (Contains userinfo ":")
          then unescape userinfo encodeUserPassword
          else
            let '(username, password, _) := Cut userinfo ":" in
            match unescape username encodeUserPassword with
            | Some err => Some err
            | None => unescape password encodeUserPassword
            end
      end
  end.

Definition parse (rawURL : string) (viaRequest : bool) : option error :=
  if stringContainsCTLByte rawURL
  then Some (errorString "net/url: invalid control character in URL")
  else if String.eqb rawURL "" && viaRequest
  then Some (errorString "empty url")
  else if String.eqb rawURL "*" then None
  else
    match getScheme rawURL with
    | inr err => Some err
    | inl (scheme, rest) =>
        let scheme := ToLower scheme in
        let rest :=
          if HasSuffix rest "?" && (CountByte rest "?" =? 1)%nat
          then upto (String.length rest - 1) rest
          else (Cut rest "?").1.1 in
        let rootless := negb (HasPrefix rest "/") in
        let hasScheme := negb (String.eqb scheme "") in
        if rootless && hasScheme then None
        else if rootless && viaRequest
        then Some (errorString "invalid URI for request")
        else if rootless && Contains (Cut rest "/").1.1 ":"
        then Some (errorString
                     "first path segment in URL cannot contain colon")
        else if (hasScheme || negb viaRequest && negb (HasPrefix rest "///"))
                && HasPrefix rest "//"
        then
          let authority := from 2 rest in
          let '(authority, rest) :=
            match Index authority "/" with
            | Some i => (upto i authority, from i authority)
            | None => (authority, "")
            end in
          match parseAuthority authority with
          | Some err => Some err
          | None => setPath rest
          end
        else setPath rest
    end.

Definition Parse (rawURL : string) : option error :=
  let '(u, frag, _) := Cut rawURL "#" in
  match parse u false with
  | Some err => Some (url_Error "parse" u err)
  | None =>
      if String.eqb frag "" then None
      else match setFragment frag with
           | Some err => Some (url_Error "parse" rawURL err)
           | None => None
           end
  end.

End url.

(** ** The provider schema and the SDK's defaults

    The five options of [Provider().Schema] as data.  [Description] and
    the [ResourcesMap] play no part in configuration and are left out. *)

Inductive ValueType : Type := TypeBool | TypeString.

(** The values of type [interface{}] that occur in the schema and in a
    provider block. *)
Inductive value : Type :=
| VString (s : string)
| VBool (b : bool).

(** [schema.EnvDefaultFunc k dv]; [None] for [dv] is Go's [nil]. *)
Inductive SchemaDefaultFunc : Type :=
| EnvDefaultFunc (k : string) (dv : option value).

Record Schema : Type := {
  Type_ : ValueType;
  Required : bool;
  Optional : bool;
  Default : option value;
  DefaultFunc : option SchemaDefaultFunc;
  Deprecated : string
}.

Definition Provider_Schema : gmap string Schema :=
  <["web_service_url" :=
      {| Type_ := TypeString; Required := true; Optional := false;
         Default := None;
         DefaultFunc := Some (EnvDefaultFunc "WEB_SERVICE_URL" None);
         Deprecated := "" |}]>
  (<["token" :=
      {| Type_ := TypeString; Required := false; Optional := true;
         Default := None;
         DefaultFunc := Some (EnvDefaultFunc "PULSAR_AUTH_TOKEN" None);
         Deprecated := "" |}]>
  (<["api_version" :=
      {| Type_ := TypeString; Required := false; Optional := true;
         Default := Some (VString "1");
         DefaultFunc := None;
         Deprecated := "The newer versions can use the right version for the right type of resource" |}]>
  (<["tls_trust_certs_file_path" :=
      {| Type_ := TypeString; Required := false; Optional := true;
         Default := None;
         DefaultFunc := Some (EnvDefaultFunc "TLS_TRUST_CERTS_FILE_PATH" None);
         Deprecated := "" |}]>
  (<["tls_allow_insecure_connection" :=
      {| Type_ := TypeBool; Required := false; Optional := true;
         Default := None;
         DefaultFunc :=
           Some (EnvDefaultFunc "TLS_ALLOW_INSECURE_CONNECTION"
                                (Some (VBool false)));
         Deprecated := "" |}]> ∅)))).

(** The process environment, as [os.Getenv] shows it: an unset variable
    reads as the empty string. *)
Definition Environ : Type := string -> string.

(** The provider block as the host sends it: the options the user wrote. *)
Definition RawConfig : Type := gmap string value.

(** What [d.Get] returns for the five keys, each at the Go type its
    schema entry gives it; the type assertions [.(string)] and [.(bool)]
    of the provider therefore never fail. *)
Record ResourceData : Type := {
  web_service_url : string;
  token : string;
  api_version : string;
  tls_trust_certs_file_path : string;
  tls_allow_insecure_connection : bool
}.

(** The rules of the Terraform plugin SDK (v2) by which a provider block
    becomes a [ResourceData]: an option that is absent takes the
    schema's default, a default function reads the environment, values
    are read as strings and converted to the option's type, no value at
    all is the zero value, and a block that lacks a required option
    or holds an unreadable boolean never reaches the provider. *)
Module schema.

Definition run (env : Environ) (f : SchemaDefaultFunc) : option value :=
  match f with
  | EnvDefaultFunc k dv =>
      if String.eqb (env k) "" then dv else Some (VString (env k))
  end.

Definition DefaultValue (env : Environ) (s : Schema) : option value :=
  match Default s with
  | Some v => Some v
  | None =>
      match DefaultFunc s with
      | Some f => run env f
      | None => None
      end
  end.

Definition ParseBool (str : string) : option bool :=
  if existsb (String.eqb str) ["1"; "t"; "T"; "true"; "TRUE"; "True"]
  then Some true
  else if existsb (String.eqb str) ["0"; "f"; "F"; "false"; "FALSE"; "False"]
  then Some false
  else None.

(** The weak decoding of a value to a string. *)
Definition weakString (v : value) : string :=
  match v with
  | VString s => s
  | VBool true => "1"
  | VBool false => "0"
  end.

Definition stringToPrimitive (str : string) (t : ValueType) : option value :=
  match t with
  | TypeString => Some (VString str)
  | TypeBool =>
      if String.eqb str "" then Some (VBool false)
      else VBool <$> ParseBool str
  end.

Definition Zero (t : ValueType) : value :=
  match t with
  | TypeString => VString ""
  | TypeBool => VBool false
  end.

(** The value of option [k]; [None] when the block is refused. *)
Definition read (env : Environ) (raw : RawConfig) (k : string)
  : option value :=
  s ← Provider_Schema !! k;
  match (match raw !! k with
         | Some v => Some v
         | None => DefaultValue env s
         end) with
  | Some v => stringToPrimitive (weakString v) (Type_ s)
  | None => if Required s then None else Some (Zero (Type_ s))
  end.

Definition readString (env : Environ) (raw : RawConfig) (k : string)
  : option string :=
  v ← read env raw k;
  match v with VString s => Some s | VBool _ => None end.

Definition readBool (env : Environ) (raw : RawConfig) (k : string)
  : option bool :=
  v ← read env raw k;
  match v with VBool b => Some b | VString _ => None end.

Definition Data (env : Environ) (raw : RawConfig) : option ResourceData :=
  url ← readString env raw "web_service_url";
  tok ← readString env raw "token";
  api ← readString env raw "api_version";
  certs ← readString env raw "tls_trust_certs_file_path";
  insecure ← readBool env raw "tls_allow_insecure_connection";
  Some {| web_service_url := url;
          token := tok;
          api_version := api;
          tls_trust_certs_file_path := certs;
          tls_allow_insecure_connection := insecure |}.

End schema.

(** ** The backend library's types *)

(** [common.APIVersion]: the three versions the provider asks for. *)
Inductive APIVersion : Type := V1 | V2 | V3.

#[global] Instance APIVersion_eq_dec : EqDecision APIVersion.
Proof. solve_decision. Defined.

#[global] Instance APIVersion_countable : Countable APIVersion.
Proof.
  refine (inj_countable'
            (fun v => match v with V1 => 1%nat | V2 => 2%nat | V3 => 3%nat end)
            (fun n => match n with 1%nat => V1 | 2%nat => V2 | _ => V3 end) _).
  intros []; reflexivity.
Defined.

(** [common.Config], restricted to the fields the provider sets; every
    other field keeps its zero value. *)
Record Config : Type := {
  WebServiceURL : string;
  Token : string;
  PulsarAPIVersion : APIVersion;
  TLSTrustCertsFilePath : string;
  TLSAllowInsecureConnection : bool
}.

(** A Go result [(T, error)] of a call that returns one or the other. *)
Inductive result (T : Type) : Type :=
| Ok (t : T)
| Err (err : error).
Arguments Ok {T} t.
Arguments Err {T} err.

Definition is_Ok {T : Type} (r : result T) : bool :=
  match r with Ok _ => true | Err _ => false end.

(** [diag.FromErr err] is one diagnostic of severity [Error] whose
    summary is the message of [err]; the diagnostic keeps the error. *)
Inductive Diagnostic : Type :=
| ErrorDiagnostic (err : error).

Definition Diagnostics : Type := list Diagnostic.

Definition diag_FromErr (err : error) : Diagnostics := [ErrorDiagnostic err].

(** ** The provider *)

Definition validatePulsarConfig (d : ResourceData) : option error :=
  let webServiceURL := web_service_url d in
  match url.Parse webServiceURL with
  | Some err =>
      Some (fmt_Errorf "ERROR_PULSAR_CONFIG_INVALID_WEB_SERVICE_URL: %w" err)
  | None => None
  end.

Section provider.

(** The backend: the type of client handles, the world the constructor
    acts on (network, files, the library's own state) and the
    constructor [pulsar.New] itself. *)
Context {World Client : Type}.
Variable pulsar_New : Config -> World -> result Client * World.

(** What a run of the provider can touch: the backend's world, the
    record of the calls made to [pulsar.New] with their outcomes, in
    order, and the lines written with [log.Printf]. *)
Record Runtime : Type := {
  backend : World;
  constructions : list (Config * result Client);
  logged : list string
}.

Definition log_Printf (line : string) (rt : Runtime) : Runtime :=
  {| backend := backend rt;
     constructions := constructions rt;
     logged := logged rt ++ [line] |}.

Definition New (config : Config) (rt : Runtime) : result Client * Runtime :=
  let '(r, w) := pulsar_New config (backend rt) in
  (r, {| backend := w;
         constructions := constructions rt ++ [(config, r)];
         logged := logged rt |}).

(** The [for ... range] loop of [providerConfigure] over the versions
    still to do, with its early [return] on the first error. *)
Fixpoint build (versions : list APIVersion)
    (clusterURL token TLSTrustCertsFilePath : string)
    (TLSAllowInsecureConnection : bool)
    (meta : gmap APIVersion Client) (rt : Runtime)
  : result (gmap APIVersion Client) * Runtime :=
  match versions with
  | [] => (Ok meta, rt)
  | version :: versions' =>
      let config :=
        {| WebServiceURL := clusterURL;
           Token := token;
           PulsarAPIVersion := version;
           TLSTrustCertsFilePath := TLSTrustCertsFilePath;
           TLSAllowInsecureConnection := TLSAllowInsecureConnection |} in
      match New config rt with
      | (Err err, rt') =>
          (Err (fmt_Errorf "failed to create pulsar client: %w" err), rt')
      | (Ok client, rt') =>
          build versions' clusterURL token TLSTrustCertsFilePath
                TLSAllowInsecureConnection (<[version := client]> meta) rt'
      end
  end.

Definition providerConfigure (d : ResourceData) (tfVersion : string)
    (rt : Runtime) : result (gmap APIVersion Client) * Runtime :=
  let rt := log_Printf "Started" rt in
  let _ := tfVersion in
  let clusterURL := web_service_url d in
  let token := token d in
  let TLSTrustCertsFilePath := tls_trust_certs_file_path d in
  let TLSAllowInsecureConnection := tls_allow_insecure_connection d in
  build [V1; V2; V3] clusterURL token TLSTrustCertsFilePath
        TLSAllowInsecureConnection ∅ rt.

(** The function stored in [provider.ConfigureContextFunc];
    [TerraformVersion] is the provider's field of that name. *)
Definition ConfigureContextFunc (TerraformVersion : string)
    (d : ResourceData) (rt : Runtime)
  : (option (gmap APIVersion Client) * Diagnostics) * Runtime :=
  let tfVersion :=
    if String.eqb TerraformVersion "" then "0.11+compatible"
    else TerraformVersion in
  match validatePulsarConfig d with
  | Some err => ((None, diag_FromErr err), rt)
  | None =>
      match providerConfigure d tfVersion rt with
      | (Err err, rt') => ((None, diag_FromErr err), rt')
      | (Ok output, rt') => ((Some output, []), rt')
      end
  end.

(** *** Reading the record of constructor calls *)

(** The calls to [pulsar.New] made between two states of a run. *)
Definition attempted (rt rt' : Runtime) : list (Config * result Client) :=
  drop (length (constructions rt)) (constructions rt').

(** [calls w tr w']: the entries of [tr] are what [pulsar.New] really
    answered, one call after the other, from world [w] to world [w']. *)
Inductive calls : World -> list (Config * result Client) -> World -> Prop :=
| calls_nil w : calls w [] w
| calls_cons c w r w1 tr w2 :
    pulsar_New c w = (r, w1) ->
    calls w1 tr w2 ->
    calls w ((c, r) :: tr) w2.

(** [built cfg versions meta tr res]: the shape of a run of the loop over
    [versions] from the map [meta]: it stops at the first failed call with
    the wrapped cause, and otherwise stores each client under its version. *)
Inductive built (cfg : APIVersion -> Config)
  : list APIVersion -> gmap APIVersion Client ->
    list (Config * result Client) -> result (gmap APIVersion Client) -> Prop :=
| built_done meta : built cfg [] meta [] (Ok meta)
| built_fail version versions meta cause :
    built cfg (version :: versions) meta [(cfg version, Err cause)]
          (Err (fmt_Errorf "failed to create pulsar client: %w" cause))
| built_next version versions meta client tr res :
    built cfg versions (<[version := client]> meta) tr res ->
    built cfg (version :: versions) meta ((cfg version, Ok client) :: tr) res.

(** The claim that a pass was stopped by the validation gate: the
    invalid-endpoint error comes back, no registry, and no constructor
    call was made. *)
Definition rejected_at_gate (TerraformVersion : string) (d : ResourceData)
    (rt : Runtime) : Prop :=
  ∃ err,
    (ConfigureContextFunc TerraformVersion d rt).1
    = (None, diag_FromErr
               (fmt_Errorf "ERROR_PULSAR_CONFIG_INVALID_WEB_SERVICE_URL: %w" err))
    ∧ attempted rt (ConfigureContextFunc TerraformVersion d rt).2 = [].

End provider.

(** The configuration [providerConfigure] hands to [pulsar.New] for a
    version. *)
Definition configFor (d : ResourceData) (version : APIVersion) : Config :=
  {| WebServiceURL := web_service_url d;
     Token := token d;
     PulsarAPIVersion := version;
     TLSTrustCertsFilePath := tls_trust_certs_file_path d;
     TLSAllowInsecureConnection := tls_allow_insecure_connection d |}.

(** The claim that the error of a failed pass tells which version
    failed: some reading [identify] of the returned error gives, for
    every backend and every failed call, the version of that call. *)
Definition identifies_version (identify : error -> APIVersion) : Prop :=
  ∀ (World Client : Type)
    (pulsar_New : Config -> World -> result Client * World)
    (d : ResourceData) (tfVersion : string) (rt : Runtime)
    (c : Config) (cause : error),
    (c, Err cause)
      ∈ attempted rt (providerConfigure pulsar_New d tfVersion rt).2 ->
    ∃ err, (providerConfigure pulsar_New d tfVersion rt).1 = Err err
           ∧ identify err = PulsarAPIVersion c.

(** The claim that options left out of the provider block read as empty
    token, empty trust path and [false]. *)
Definition omitted_options_are_zero (env : Environ) (raw : RawConfig) : Prop :=
  raw !! "token" = None ->
  raw !! "tls_trust_certs_file_path" = None ->
  raw !! "tls_allow_insecure_connection" = None ->
  ∀ d version,
    schema.Data env raw = Some d ->
    Token (configFor d version) = ""
    ∧ TLSTrustCertsFilePath (configFor d version) = ""
    ∧ TLSAllowInsecureConnection (configFor d version) = false.

(** ** A backend to run examples on

    Its world counts the clients handed out; a client remembers its
    serial number and the configuration it was built from; [failing]
    says for which versions construction fails, and with what error. *)
Module mock.

Record Client : Type := { serial : nat; config : Config }.

Definition New (failing : APIVersion -> option error)
    (c : Config) (w : nat) : result Client * nat :=
  match failing (PulsarAPIVersion c) with
  | Some err => (Err err, w)
  | None => (Ok {| serial := w; config := c |}, S w)
  end.

Definition never : APIVersion -> option error := fun _ => None.

Definition only (version : APIVersion) (err : error)
  : APIVersion -> option error :=
  fun v => if decide (v = version) then Some err else None.

Definition start : @Runtime nat Client :=
  {| backend := 0; constructions := []; logged := [] |}.

Definition data (endpoint : string) : ResourceData :=
  {| web_service_url := endpoint;
     token := "";
     api_version := "1";
     tls_trust_certs_file_path := "";
     tls_allow_insecure_connection := false |}.

Definition refused : error := errorString "connection refused".

Definition no_env : Environ := fun _ => "".

Definition token_env : Environ :=
  fun k => if String.eqb k "PULSAR_AUTH_TOKEN" then "s3cr3t" else "".

Definition block (endpoint : string) : RawConfig :=
  {[ "web_service_url" := VString endpoint ]}.

End mock.

(** ** The option descriptions

    The package variable [descriptions] as [init] fills it: the entries
    of the map literal, assigned in the order they are written.  The last
    key is the constant [resourceConfigsAttribute], declared in another
    file of the package; it is a parameter here. *)
Module descriptions_of.

Definition assign (m : gmap string string) (entry : string * string)
  : gmap string string :=
  <[entry.1 := entry.2]> m.

Definition literal : list (string * string) :=
  [ ("web_service_url",
     "Web service url is used to connect to your apache pulsar cluster");
    ("token",
     "Authentication Token used to grant terraform permissions
to modify Apace Pulsar Entities");
    ("api_version", "Api Version to be used for the pulsar admin interaction");
    ("tls_trust_certs_file_path",
     "Path to a custom trusted TLS certificate file");
    ("tls_allow_insecure_connection",
     "Boolean flag to accept untrusted TLS certificates");
    ("admin_roles", "Admin roles to be attached to tenant");
    ("allowed_clusters", "Tenant will be able to interact with these clusters");
    ("namespace", "Pulsar namespaces are logical groupings of topics");
    ("tenant",
     "An administrative unit for allocating capacity and enforcing an 
authentication/authorization scheme");
    ("namespace_list", "List of namespaces for a given tenant");
    ("enable_duplication",
     "ensures that each message produced on Pulsar topics is persisted to disk 
only once, even if the message is produced more than once");
    ("encrypt_topics",
     "encrypt messages at the producer and decrypt at the consumer");
    ("max_producers_per_topic", "Max number of producers per topic");
    ("max_consumers_per_subscription",
     "Max number of consumers per subscription");
    ("max_consumers_per_topic", "Max number of consumers per topic");
    ("dispatch_rate", "Data transfer rate, in and out of the Pulsar Broker");
    ("persistence_policy", "Policy for the namespace for data persistence");
    ("backlog_quota", "") ].

Definition init (resourceConfigsAttribute : string) : gmap string string :=
  foldl assign ∅
        (literal ++ [(resourceConfigsAttribute, "Configuration encoded as JSON")]).

(** [descriptions[k]]: indexing a Go map gives the empty string for a
    key that is absent. *)
Definition index (descriptions : gmap string string) (k : string) : string :=
  default "" (descriptions !! k).

End descriptions_of.

(** ** Classes of endpoint bytes *)

(** [every p s]: all the bytes of [s] satisfy [p]. *)
Fixpoint every (p : ascii -> bool) (s : string) : bool :=
  match s with
  | EmptyString => true
  | String c s' => p c && every p s'
  end.

(** Letters, digits and the space. *)
Definition plain (c : ascii) : bool :=
  url.isLower c || url.isUpper c || url.isDigit c || Ascii.eqb c " ".

(** The ASCII control bytes: below the space, and DEL. *)
Definition control (c : ascii) : bool :=
  (gostrings.byte c <? 32)%N || (gostrings.byte c =? 127)%N.

(** A provider block that gives the endpoint and a token. *)
Definition both_block : RawConfig :=
  <["token" := VString "from-block"]>
    (mock.block "https://pulsar.example.com:8080").

(** Looks an option up in the provider schema by computation. *)
Ltac schema_entry := vm_compute; reflexivity.

(** * Properties *)

Section provider_facts.

Context {World Client : Type}.
Variable pulsar_New : Config -> World -> result Client * World.

Implicit Types (d : ResourceData) (rt : @Runtime World Client).
Implicit Types (tr : list (Config * result Client)).

Lemma attempted_app rt rt' tr :
  constructions rt' = constructions rt ++ tr -> attempted rt rt' = tr.
Proof.
  intros E. unfold attempted. rewrite E. apply drop_app_length.
Qed.

Lemma attempted_same rt : attempted rt rt = [].
Proof. apply attempted_app. by rewrite app_nil_r. Qed.

(** One call of the traced constructor is one step of [calls]. *)
Lemma New_step c rt r rt' :
  New pulsar_New c rt = (r, rt') ->
  pulsar_New c (backend rt) = (r, backend rt')
  ∧ constructions rt' = constructions rt ++ [(c, r)]
  ∧ logged rt' = logged rt.
Proof.
  unfold New. destruct (pulsar_New c (backend rt)) as [r0 w] eqn:E.
  intros [= <- <-]. done.
Qed.

(** The loop, run from any map and any state, has the shape [built]. *)
Lemma build_built versions url tok certs ins :
  ∀ meta rt res rt',
    build pulsar_New versions url tok certs ins meta rt = (res, rt') ->
    ∃ tr,
      constructions rt' = constructions rt ++ tr
      ∧ logged rt' = logged rt
      ∧ calls pulsar_New (backend rt) tr (backend rt')
      ∧ built (fun v => {| WebServiceURL := url; Token := tok;
                           PulsarAPIVersion := v;
                           TLSTrustCertsFilePath := certs;
                           TLSAllowInsecureConnection := ins |})
              versions meta tr res.
Proof.
  induction versions as [|version versions IH]; intros meta rt res rt'; cbn [build].
  - intros [= <- <-]. exists []. rewrite app_nil_r.
    repeat split; constructor.
  - destruct (New pulsar_New _ rt) as [[client|err] rt1] eqn:EN;
      apply New_step in EN as (Hnew & Hcs & Hlog).
    + intros H. destruct (IH _ _ _ _ H) as (tr & Hcs' & Hlog' & Hcalls & Hb).
      eexists (_ :: tr). split; [|split; [|split]].
      * rewrite Hcs', Hcs, <- app_assoc. reflexivity.
      * congruence.
      * econstructor; eassumption.
      * by constructor.
    + intros [= <- <-]. eexists [_]. split; [|split; [|split]].
      * exact Hcs.
      * exact Hlog.
      * econstructor; [eassumption | constructor].
      * constructor.
Qed.

Lemma providerConfigure_built d tfVersion rt res rt' :
  providerConfigure pulsar_New d tfVersion rt = (res, rt') ->
  logged rt' = logged rt ++ ["Started"]
  ∧ calls pulsar_New (backend rt) (attempted rt rt') (backend rt')
  ∧ built (configFor d) [V1; V2; V3] ∅ (attempted rt rt') res.
Proof.
  unfold providerConfigure. intros H.
  apply build_built in H as (tr & Hcs & Hlog & Hcalls & Hb).
  cbn in Hcs, Hlog, Hcalls.
  rewrite (attempted_app rt rt' tr Hcs). done.
Qed.

(** The four ways the loop over the three versions can go. *)
Lemma built_three_inv cfg tr (res : result (gmap APIVersion Client)) :
  built cfg [V1; V2; V3] ∅ tr res ->
  (∃ e, tr = [(cfg V1, Err e)]
        ∧ res = Err (fmt_Errorf "failed to create pulsar client: %w" e))
  ∨ (∃ c1 e, tr = [(cfg V1, Ok c1); (cfg V2, Err e)]
        ∧ res = Err (fmt_Errorf "failed to create pulsar client: %w" e))
  ∨ (∃ c1 c2 e, tr = [(cfg V1, Ok c1); (cfg V2, Ok c2); (cfg V3, Err e)]
        ∧ res = Err (fmt_Errorf "failed to create pulsar client: %w" e))
  ∨ (∃ c1 c2 c3,
        tr = [(cfg V1, Ok c1); (cfg V2, Ok c2); (cfg V3, Ok c3)]
        ∧ res = Ok (<[V3 := c3]> (<[V2 := c2]> (<[V1 := c1]> ∅)))).
Proof.
  intros H. inversion H as [| |? ? ? c1 tr1 ? H1]; subst; [left; eauto|].
  inversion H1 as [| |? ? ? c2 tr2 ? H2]; subst; [right; left; eauto|].
  inversion H2 as [| |? ? ? c3 tr3 ? H3]; subst; [right; right; left; eauto|].
  inversion H3; subst. right; right; right. eauto 10.
Qed.

(** The result of [providerConfigure] does not depend on [tfVersion]. *)
Lemma providerConfigure_tfVersion d tf1 tf2 rt :
  providerConfigure pulsar_New d tf1 rt = providerConfigure pulsar_New d tf2 rt.
Proof. reflexivity. Qed.

(** When the gate lets the configuration through, the entry point gives
    what [providerConfigure] gives. *)
Lemma ConfigureContextFunc_pass TerraformVersion d rt :
  validatePulsarConfig d = None ->
  ConfigureContextFunc pulsar_New TerraformVersion d rt
  = match providerConfigure pulsar_New d "" rt with
    | (Err err, rt') => ((None, diag_FromErr err), rt')
    | (Ok output, rt') => ((Some output, []), rt')
    end.
Proof.
  intros Hv. unfold ConfigureContextFunc. rewrite Hv.
  by rewrite (providerConfigure_tfVersion d _ "").
Qed.

Lemma validatePulsarConfig_None d :
  validatePulsarConfig d = None <-> url.Parse (web_service_url d) = None.
Proof.
  unfold validatePulsarConfig.
  destruct (url.Parse (web_service_url d)); split; congruence.
Qed.

(** Whatever happens, the first constructor call is the one for [V1]. *)
Lemma first_attempt d tfVersion rt :
  ∃ r tr,
    attempted rt (providerConfigure pulsar_New d tfVersion rt).2
    = (configFor d V1, r) :: tr.
Proof.
  destruct (providerConfigure pulsar_New d tfVersion rt) as [res rt'] eqn:E.
  cbn [fst snd].
  apply providerConfigure_built in E as (_ & _ & Hb).
  apply built_three_inv in Hb
    as [(e & -> & _) | [(c1 & e & -> & _) | [(c1 & c2 & e & -> & _)
       | (c1 & c2 & c3 & -> & _)]]]; eauto.
Qed.

(** Every constructor call gets the configuration of some version. *)
Lemma attempted_configFor d tfVersion rt :
  Forall (fun call => ∃ version, call.1 = configFor d version)
         (attempted rt (providerConfigure pulsar_New d tfVersion rt).2).
Proof.
  destruct (providerConfigure pulsar_New d tfVersion rt) as [res rt'] eqn:E.
  cbn [fst snd].
  apply providerConfigure_built in E as (_ & _ & Hb).
  apply built_three_inv in Hb
    as [(e & -> & _) | [(c1 & e & -> & _) | [(c1 & c2 & e & -> & _)
       | (c1 & c2 & c3 & -> & _)]]]; repeat constructor; cbn; eauto.
Qed.

Lemma ConfigureContextFunc_pass_state TerraformVersion d rt :
  validatePulsarConfig d = None ->
  (ConfigureContextFunc pulsar_New TerraformVersion d rt).2
  = (providerConfigure pulsar_New d "" rt).2.
Proof.
  intros Hv. rewrite (ConfigureContextFunc_pass _ _ _ Hv).
  by destruct (providerConfigure pulsar_New d "" rt) as [[|] ?].
Qed.

(** C1. Whenever [providerConfigure] succeeds, the registry it returns
    has exactly three entries, one under each of [V1], [V2] and [V3], so
    that lookup is total; the three clients are the answers of three
    separate constructor calls, one per version, and they are pairwise
    distinct as soon as a client of the backend speaks the version it was
    built for. *)
Theorem providerConfigure_registry d tfVersion rt meta rt' :
  providerConfigure pulsar_New d tfVersion rt = (Ok meta, rt') ->
  size meta = 3
  ∧ dom meta = ({[V1; V2; V3]} : gset APIVersion)
  ∧ (∀ version, is_Some (meta !! version))
  ∧ ∃ c1 c2 c3,
      meta !! V1 = Some c1 ∧ meta !! V2 = Some c2 ∧ meta !! V3 = Some c3
      ∧ attempted rt rt'
        = [(configFor d V1, Ok c1); (configFor d V2, Ok c2);
           (configFor d V3, Ok c3)]
      ∧ calls pulsar_New (backend rt) (attempted rt rt') (backend rt')
      ∧ ∀ version_of : Client -> APIVersion,
          (∀ c w cl w', pulsar_New c w = (Ok cl, w') ->
                        version_of cl = PulsarAPIVersion c) ->
          NoDup [c1; c2; c3].
Proof.
  intros H. apply providerConfigure_built in H as (_ & Hcalls & Hb).
  apply built_three_inv in Hb
    as [(e & _ & [=]) | [(c1 & e & _ & [=]) | [(c1 & c2 & e & _ & [=])
       | (c1 & c2 & c3 & Htr & [= ->])]]].
  split; [|split; [|split]].
  - rewrite !map_size_insert_None by by simplify_map_eq.
    by rewrite map_size_empty.
  - rewrite !dom_insert_L, dom_empty_L. set_solver.
  - intros []; simplify_map_eq; eauto.
  - exists c1, c2, c3. simplify_map_eq. repeat split; try done.
    intros version_of Hv. rewrite Htr in Hcalls.
    inversion Hcalls as [|? ? ? ? ? ? E1 K1]; subst.
    inversion K1 as [|? ? ? ? ? ? E2 K2]; subst.
    inversion K2 as [|? ? ? ? ? ? E3 K3]; subst.
    apply Hv in E1, E2, E3. cbn in E1, E2, E3.
    assert (c1 ≠ c2 ∧ c1 ≠ c3 ∧ c2 ≠ c3) as (N12 & N13 & N23)
      by (repeat split; congruence).
    rewrite !NoDup_cons, !not_elem_of_cons.
    repeat split; try done; try apply not_elem_of_nil. apply NoDup_nil_2.
Qed.

(** C2. If any constructor call made by [providerConfigure] fails, the
    pass returns the wrapped error and no registry; the failed call is the
    last one made, every call before it succeeded, and the calls made are
    those for an initial segment of [V1], [V2], [V3], so nothing is
    attempted for the versions after the failing one.  The entry point
    then hands no registry to its caller. *)
Theorem providerConfigure_fail_fast d tfVersion rt c cause :
  (c, Err cause)
    ∈ attempted rt (providerConfigure pulsar_New d tfVersion rt).2 ->
  (providerConfigure pulsar_New d tfVersion rt).1
  = Err (fmt_Errorf "failed to create pulsar client: %w" cause)
  ∧ (∃ pre,
        attempted rt (providerConfigure pulsar_New d tfVersion rt).2
        = pre ++ [(c, Err cause)]
        ∧ Forall (fun call => is_Ok call.2 = true) pre
        ∧ map fst (pre ++ [(c, Err cause)])
          = take (S (length pre)) (map (configFor d) [V1; V2; V3]))
  ∧ ∀ TerraformVersion,
      (ConfigureContextFunc pulsar_New TerraformVersion d rt).1.1 = None.
Proof.
  intros Hin.
  assert (Hres : (providerConfigure pulsar_New d tfVersion rt).1
                 = Err (fmt_Errorf "failed to create pulsar client: %w" cause)
            ∧ ∃ pre,
                attempted rt (providerConfigure pulsar_New d tfVersion rt).2
                = pre ++ [(c, Err cause)]
                ∧ Forall (fun call => is_Ok call.2 = true) pre
                ∧ map fst (pre ++ [(c, Err cause)])
                  = take (S (length pre)) (map (configFor d) [V1; V2; V3])).
  { destruct (providerConfigure pulsar_New d tfVersion rt) as [res rt'] eqn:E.
    cbn [fst snd] in *.
    apply providerConfigure_built in E as (_ & _ & Hb).
    apply built_three_inv in Hb
      as [(e & Htr & ->) | [(c1 & e & Htr & ->) | [(c1 & c2 & e & Htr & ->)
         | (c1 & c2 & c3 & Htr & ->)]]];
      rewrite Htr in *; clear Htr;
      repeat (apply elem_of_cons in Hin as [Hin|Hin]; [try discriminate|]);
      try (by apply elem_of_nil in Hin);
      injection Hin as -> ->; (split; [reflexivity|]).
    - exists []. by repeat split.
    - exists [(configFor d V1, Ok c1)]. repeat split. by repeat constructor.
    - exists [(configFor d V1, Ok c1); (configFor d V2, Ok c2)].
      repeat split. by repeat constructor. }
  destruct Hres as [Hres Hpre]. repeat split; try done.
  intros TerraformVersion. unfold ConfigureContextFunc.
  destruct (validatePulsarConfig d); [done|].
  rewrite (providerConfigure_tfVersion d _ tfVersion).
  destruct (providerConfigure pulsar_New d tfVersion rt) as [[|] ?]; [|done].
  discriminate Hres.
Qed.

(** C5. The constructor calls of [providerConfigure] go through the
    versions in the order [V1], [V2], [V3], and every call receives the
    endpoint, token, trust path and insecure flag read from the
    configuration: the configurations differ in the version only.  The
    loop goes on to the next version after every call that succeeds and
    stops only at a call that fails: the calls made are real calls of the
    constructor, all but the last succeeded, and either all three were
    made or the last one failed.  The pass succeeds exactly when every
    call did, and then all three were made. *)
Theorem constructions_in_order d tfVersion rt :
  ∃ n : nat, (1 ≤ n ≤ 3)%nat
    ∧ map (fun call => PulsarAPIVersion call.1)
          (attempted rt (providerConfigure pulsar_New d tfVersion rt).2)
      = take n [V1; V2; V3]
    ∧ Forall (fun call =>
                WebServiceURL call.1 = web_service_url d
                ∧ Token call.1 = token d
                ∧ TLSTrustCertsFilePath call.1 = tls_trust_certs_file_path d
                ∧ TLSAllowInsecureConnection call.1
                  = tls_allow_insecure_connection d)
             (attempted rt (providerConfigure pulsar_New d tfVersion rt).2)
    ∧ (is_Ok (providerConfigure pulsar_New d tfVersion rt).1 = true -> n = 3)
    ∧ Forall (fun call => is_Ok call.2 = true)
             (take (n - 1)
                (attempted rt (providerConfigure pulsar_New d tfVersion rt).2))
    ∧ (n = 3
       ∨ ∃ c cause,
           last (attempted rt (providerConfigure pulsar_New d tfVersion rt).2)
           = Some (c, Err cause))
    ∧ calls pulsar_New (backend rt)
        (attempted rt (providerConfigure pulsar_New d tfVersion rt).2)
        (backend (providerConfigure pulsar_New d tfVersion rt).2)
    ∧ (is_Ok (providerConfigure pulsar_New d tfVersion rt).1 = true
       ↔ Forall (fun call => is_Ok call.2 = true)
           (attempted rt (providerConfigure pulsar_New d tfVersion rt).2)).
Proof.
  destruct (providerConfigure pulsar_New d tfVersion rt) as [res rt'] eqn:E.
  cbn [fst snd].
  apply providerConfigure_built in E as (_ & Hcalls & Hb).
  apply built_three_inv in Hb
    as [(e & Htr & ->) | [(c1 & e & Htr & ->) | [(c1 & c2 & e & Htr & ->)
       | (c1 & c2 & c3 & Htr & ->)]]];
    rewrite Htr in *; clear Htr.
  - exists 1. split; [lia|]. split; [done|].
    split; [by repeat constructor|]. split; [done|].
    split; [constructor|]. split; [right; eauto|].
    split; [exact Hcalls|]. split; [done|].
    intros HF. by apply Forall_cons in HF as [? _].
  - exists 2. split; [lia|]. split; [done|].
    split; [by repeat constructor|]. split; [done|].
    split; [by repeat constructor|]. split; [right; eauto|].
    split; [exact Hcalls|]. split; [done|].
    intros HF. rewrite !Forall_cons in HF. by destruct HF as (_ & ? & _).
  - exists 3. split; [lia|]. split; [done|].
    split; [by repeat constructor|]. split; [done|].
    split; [by repeat constructor|]. split; [right; eauto|].
    split; [exact Hcalls|]. split; [done|].
    intros HF. rewrite !Forall_cons in HF.
    by destruct HF as (_ & _ & ? & _).
  - exists 3. split; [lia|]. split; [done|].
    split; [by repeat constructor|]. split; [done|].
    split; [by repeat constructor|]. split; [by left|].
    split; [exact Hcalls|]. split; [|done].
    intros _. by repeat constructor.
Qed.

(** C6 (amended). When a constructor call fails, the error returned by
    [providerConfigure] wraps the cause of that call, which [Unwrap] gives
    back, under the fixed text [failed to create pulsar client]; the text
    is the same whichever version failed. *)
Theorem construction_error_wraps_cause d tfVersion rt c cause :
  (c, Err cause)
    ∈ attempted rt (providerConfigure pulsar_New d tfVersion rt).2 ->
  ∃ err,
    (providerConfigure pulsar_New d tfVersion rt).1 = Err err
    ∧ Unwrap err = Some cause
    ∧ err = wrapError "failed to create pulsar client: %w" cause.
Proof.
  intros Hin.
  destruct (providerConfigure pulsar_New d tfVersion rt) as [res rt'] eqn:E.
  cbn [fst snd] in *.
  apply providerConfigure_built in E as (_ & _ & Hb).
  apply built_three_inv in Hb
    as [(e & Htr & ->) | [(c1 & e & Htr & ->) | [(c1 & c2 & e & Htr & ->)
       | (c1 & c2 & c3 & Htr & ->)]]];
    rewrite Htr in *; clear Htr;
    repeat (apply elem_of_cons in Hin as [Hin|Hin]; [try discriminate|]);
    try (by apply elem_of_nil in Hin);
    injection Hin as -> ->; eexists; repeat split.
Qed.

(** C3. When [url.Parse] rejects the endpoint, the entry point returns
    the invalid-endpoint error wrapping the parse error, returns no
    registry and leaves the state as it was: no constructor call is
    made. *)
Theorem invalid_endpoint_rejected TerraformVersion d rt err :
  url.Parse (web_service_url d) = Some err ->
  ConfigureContextFunc pulsar_New TerraformVersion d rt
  = ((None,
      diag_FromErr
        (fmt_Errorf "ERROR_PULSAR_CONFIG_INVALID_WEB_SERVICE_URL: %w" err)),
     rt)
  ∧ rejected_at_gate pulsar_New TerraformVersion d rt.
Proof.
  intros Hp.
  assert (E : ConfigureContextFunc pulsar_New TerraformVersion d rt
              = ((None,
                  diag_FromErr
                    (fmt_Errorf
                       "ERROR_PULSAR_CONFIG_INVALID_WEB_SERVICE_URL: %w" err)),
                 rt)).
  { unfold ConfigureContextFunc, validatePulsarConfig. by rewrite Hp. }
  split; [exact E|]. exists err. rewrite E. split; [done|].
  apply attempted_same.
Qed.

(** The ways a pass can end once the gate has let the configuration
    through: a registry and no diagnostic, or no registry and the
    diagnostic of a failed constructor call. *)
Lemma ConfigureContextFunc_pass_outcome TerraformVersion d rt :
  validatePulsarConfig d = None ->
  (∃ reg,
      (ConfigureContextFunc pulsar_New TerraformVersion d rt).1
      = (Some reg, []))
  ∨ (∃ cause,
        (ConfigureContextFunc pulsar_New TerraformVersion d rt).1
        = (None,
           diag_FromErr
             (fmt_Errorf "failed to create pulsar client: %w" cause))).
Proof.
  intros Hv. rewrite (ConfigureContextFunc_pass _ _ _ Hv).
  destruct (providerConfigure pulsar_New d "" rt) as [res rt'] eqn:E.
  apply providerConfigure_built in E as (_ & _ & Hb).
  apply built_three_inv in Hb
    as [(e & _ & ->) | [(c1 & e & _ & ->) | [(c1 & c2 & e & _ & ->)
       | (c1 & c2 & c3 & _ & ->)]]]; cbn [fst]; eauto.
Qed.

(** C4 (amended). [url.Parse] accepts the string [not a url] (it reads
    it as a relative path), so with that endpoint the gate lets the
    configuration through and the entry point returns what
    [providerConfigure] returns: it does not return the invalid-endpoint
    error, whatever the parse error in it might be, but either a registry
    and no diagnostic or the diagnostic of a failed constructor call; and
    the constructor is called, first for [V1] with that endpoint. *)
Theorem not_a_url_reaches_construction TerraformVersion tok api certs ins rt :
  url.Parse "not a url" = None
  ∧ validatePulsarConfig
      {| web_service_url := "not a url"; token := tok; api_version := api;
         tls_trust_certs_file_path := certs;
         tls_allow_insecure_connection := ins |} = None
  ∧ ¬ rejected_at_gate pulsar_New TerraformVersion
        {| web_service_url := "not a url"; token := tok; api_version := api;
           tls_trust_certs_file_path := certs;
           tls_allow_insecure_connection := ins |} rt
  ∧ (∃ r tr,
      attempted rt
        (ConfigureContextFunc pulsar_New TerraformVersion
           {| web_service_url := "not a url"; token := tok;
              api_version := api; tls_trust_certs_file_path := certs;
              tls_allow_insecure_connection := ins |} rt).2
      = ({| WebServiceURL := "not a url"; Token := tok;
            PulsarAPIVersion := V1; TLSTrustCertsFilePath := certs;
            TLSAllowInsecureConnection := ins |}, r) :: tr)
  ∧ (∀ err,
       (ConfigureContextFunc pulsar_New TerraformVersion
          {| web_service_url := "not a url"; token := tok;
             api_version := api; tls_trust_certs_file_path := certs;
             tls_allow_insecure_connection := ins |} rt).1
       ≠ (None,
          diag_FromErr
            (fmt_Errorf "ERROR_PULSAR_CONFIG_INVALID_WEB_SERVICE_URL: %w"
                        err)))
  ∧ ((∃ reg,
        (ConfigureContextFunc pulsar_New TerraformVersion
           {| web_service_url := "not a url"; token := tok;
              api_version := api; tls_trust_certs_file_path := certs;
              tls_allow_insecure_connection := ins |} rt).1
        = (Some reg, []))
     ∨ (∃ cause,
          (ConfigureContextFunc pulsar_New TerraformVersion
             {| web_service_url := "not a url"; token := tok;
                api_version := api; tls_trust_certs_file_path := certs;
                tls_allow_insecure_connection := ins |} rt).1
          = (None,
             diag_FromErr
               (fmt_Errorf "failed to create pulsar client: %w" cause))))
  ∧ ConfigureContextFunc pulsar_New TerraformVersion
      {| web_service_url := "not a url"; token := tok; api_version := api;
         tls_trust_certs_file_path := certs;
         tls_allow_insecure_connection := ins |} rt
    = match providerConfigure pulsar_New
              {| web_service_url := "not a url"; token := tok;
                 api_version := api; tls_trust_certs_file_path := certs;
                 tls_allow_insecure_connection := ins |} "" rt with
      | (Err err, rt') => ((None, diag_FromErr err), rt')
      | (Ok output, rt') => ((Some output, []), rt')
      end.
Proof.
  set (d := {| web_service_url := "not a url"; token := tok;
               api_version := api; tls_trust_certs_file_path := certs;
               tls_allow_insecure_connection := ins |}).
  assert (Hp : url.Parse "not a url" = None) by (vm_compute; reflexivity).
  assert (Hv : validatePulsarConfig d = None)
    by (apply validatePulsarConfig_None; exact Hp).
  assert (Ha : ∃ r tr,
             attempted rt (ConfigureContextFunc pulsar_New TerraformVersion d rt).2
             = (configFor d V1, r) :: tr).
  { rewrite (ConfigureContextFunc_pass_state _ _ _ Hv). apply first_attempt. }
  pose proof (ConfigureContextFunc_pass_outcome TerraformVersion d rt Hv)
    as Hout.
  split; [exact Hp|]. split; [exact Hv|]. split; [|split; [exact Ha|]].
  { intros (err & _ & Hnone). destruct Ha as (r & tr & Ha). congruence. }
  split; [|split; [exact Hout|]].
  - intros err Heq.
    destruct Hout as [[reg Hreg] | [cause Hcause]];
      rewrite Heq in *; discriminate.
  - exact (ConfigureContextFunc_pass TerraformVersion d rt Hv).
Qed.

(** C8. Two passes over the same configuration, one after the other,
    that both give a registry: each pass makes its own three constructor
    calls, so six in all, and fills its registry with the clients those
    calls returned; the two passes hand the constructor the same three
    configurations. *)
Theorem configure_twice_independent tfv1 tfv2 d rt0 rt1 rt2 reg1 reg2 :
  ConfigureContextFunc pulsar_New tfv1 d rt0 = ((Some reg1, []), rt1) ->
  ConfigureContextFunc pulsar_New tfv2 d rt1 = ((Some reg2, []), rt2) ->
  ∃ a1 a2 a3 b1 b2 b3,
    attempted rt0 rt1
    = [(configFor d V1, Ok a1); (configFor d V2, Ok a2);
       (configFor d V3, Ok a3)]
    ∧ attempted rt1 rt2
      = [(configFor d V1, Ok b1); (configFor d V2, Ok b2);
         (configFor d V3, Ok b3)]
    ∧ constructions rt2
      = constructions rt0 ++ attempted rt0 rt1 ++ attempted rt1 rt2
    ∧ calls pulsar_New (backend rt0) (attempted rt0 rt1) (backend rt1)
    ∧ calls pulsar_New (backend rt1) (attempted rt1 rt2) (backend rt2)
    ∧ reg1 = <[V3 := a3]> (<[V2 := a2]> (<[V1 := a1]> ∅))
    ∧ reg2 = <[V3 := b3]> (<[V2 := b2]> (<[V1 := b1]> ∅))
    ∧ map fst (attempted rt0 rt1) = map fst (attempted rt1 rt2).
Proof.
  assert (Hrun : ∀ tfv rt rt' reg,
             ConfigureContextFunc pulsar_New tfv d rt = ((Some reg, []), rt') ->
             ∃ c1 c2 c3,
               attempted rt rt'
               = [(configFor d V1, Ok c1); (configFor d V2, Ok c2);
                  (configFor d V3, Ok c3)]
               ∧ constructions rt' = constructions rt ++ attempted rt rt'
               ∧ calls pulsar_New (backend rt) (attempted rt rt') (backend rt')
               ∧ reg = <[V3 := c3]> (<[V2 := c2]> (<[V1 := c1]> ∅))).
  { intros tfv rt rt' reg. unfold ConfigureContextFunc.
    destruct (validatePulsarConfig d); [discriminate|].
    destruct (providerConfigure pulsar_New d _ rt) as [[meta|e] rt''] eqn:E;
      [|discriminate].
    intros [= <- <-].
    assert (Hcs : constructions rt''
                  = constructions rt ++ attempted rt rt'').
    { unfold providerConfigure in E.
      apply build_built in E as (tr & Hcs & _). cbn in Hcs.
      by rewrite (attempted_app _ _ _ Hcs). }
    apply providerConfigure_built in E as (_ & Hcalls & Hb).
    apply built_three_inv in Hb
      as [(e & _ & [=]) | [(c1 & e & _ & [=]) | [(c1 & c2 & e & _ & [=])
         | (c1 & c2 & c3 & Htr & [= ->])]]].
    exists c1, c2, c3. done. }
  intros H1 H2.
  apply Hrun in H1 as (a1 & a2 & a3 & Ha & Hca & Hcalla & ->).
  apply Hrun in H2 as (b1 & b2 & b3 & Hb & Hcb & Hcallb & ->).
  exists a1, a2, a3, b1, b2, b3. repeat split; try done.
  - by rewrite Hcb, Hca, <- app_assoc.
  - by rewrite Ha, Hb.
Qed.

(** C9. Two configurations that agree on the endpoint, the token, the
    trust path and the insecure flag are treated alike whatever their
    [api_version] and whatever Terraform version is passed: the gate, the
    registry builder and the entry point give the same result and leave
    the same state. *)
Theorem api_version_and_tfVersion_ignored d1 d2 tf1 tf2 rt :
  web_service_url d1 = web_service_url d2 ->
  token d1 = token d2 ->
  tls_trust_certs_file_path d1 = tls_trust_certs_file_path d2 ->
  tls_allow_insecure_connection d1 = tls_allow_insecure_connection d2 ->
  providerConfigure pulsar_New d1 tf1 rt = providerConfigure pulsar_New d2 tf2 rt
  ∧ validatePulsarConfig d1 = validatePulsarConfig d2
  ∧ ConfigureContextFunc pulsar_New tf1 d1 rt
    = ConfigureContextFunc pulsar_New tf2 d2 rt.
Proof.
  intros Hu Ht Hc Hi.
  assert (Hp : ∀ a b, providerConfigure pulsar_New d1 a rt
                      = providerConfigure pulsar_New d2 b rt).
  { intros a b. unfold providerConfigure. by rewrite Hu, Ht, Hc, Hi. }
  assert (Hv : validatePulsarConfig d1 = validatePulsarConfig d2).
  { unfold validatePulsarConfig. by rewrite Hu. }
  repeat split; try done.
  unfold ConfigureContextFunc. rewrite Hv.
  destruct (validatePulsarConfig d2); [done|].
  by rewrite (Hp _ (if String.eqb tf2 "" then "0.11+compatible" else tf2)).
Qed.

End provider_facts.

(** ** The gate on empty and accepted endpoints *)

(** C10. [validatePulsarConfig] succeeds on the empty endpoint and on
    every endpoint that [url.Parse] accepts; the entry point then goes on
    to the registry builder, whose first constructor call is made with
    that endpoint, empty if the endpoint is. *)
Theorem accepted_endpoint_passes_gate d :
  web_service_url d = "" ∨ url.Parse (web_service_url d) = None ->
  validatePulsarConfig d = None
  ∧ ∀ (World Client : Type)
      (pulsar_New : Config -> World -> result Client * World)
      (TerraformVersion : string) (rt : Runtime),
      ∃ c r tr,
        attempted rt (ConfigureContextFunc pulsar_New TerraformVersion d rt).2
        = (c, r) :: tr
        ∧ WebServiceURL c = web_service_url d
        ∧ PulsarAPIVersion c = V1.
Proof.
  intros H.
  assert (Hv : validatePulsarConfig d = None).
  { apply validatePulsarConfig_None.
    destruct H as [-> | H]; [vm_compute; reflexivity | exact H]. }
  split; [exact Hv|].
  intros World Client pulsar_New TerraformVersion rt.
  rewrite (ConfigureContextFunc_pass_state _ _ _ _ Hv).
  destruct (first_attempt pulsar_New d "" rt) as (r & tr & E).
  exists (configFor d V1), r, tr. done.
Qed.

(** ** Defaults of the options left out *)

Lemma readString_unset env raw k name :
  Provider_Schema !! k
  = Some {| Type_ := TypeString; Required := false; Optional := true;
            Default := None;
            DefaultFunc := Some (EnvDefaultFunc name None);
            Deprecated := "" |} ->
  raw !! k = None ->
  env name = "" ->
  schema.readString env raw k = Some "".
Proof.
  intros Hs Hr He. unfold schema.readString, schema.read.
  rewrite Hs. cbn. rewrite Hr. unfold schema.DefaultValue. cbn.
  by rewrite He.
Qed.

Lemma readBool_unset env raw :
  raw !! "tls_allow_insecure_connection" = None ->
  env "TLS_ALLOW_INSECURE_CONNECTION" = "" ->
  schema.readBool env raw "tls_allow_insecure_connection" = Some false.
Proof.
  intros Hr He. unfold schema.readBool, schema.read.
  replace (Provider_Schema !! "tls_allow_insecure_connection")
    with (Some {| Type_ := TypeBool; Required := false; Optional := true;
                  Default := None;
                  DefaultFunc :=
                    Some (EnvDefaultFunc "TLS_ALLOW_INSECURE_CONNECTION"
                                         (Some (VBool false)));
                  Deprecated := "" |})
    by (vm_compute; reflexivity).
  cbn. rewrite Hr. unfold schema.DefaultValue. cbn.
  by rewrite He.
Qed.

(** C7 (amended). When the provider block leaves out the token, the trust
    path and the insecure flag, and the environment variables
    [PULSAR_AUTH_TOKEN], [TLS_TRUST_CERTS_FILE_PATH] and
    [TLS_ALLOW_INSECURE_CONNECTION] are unset or empty, the configuration
    read by the provider has an empty token, an empty trust path and the
    flag [false], and so has every configuration handed to the
    constructor. *)
Theorem omitted_options_default env raw d :
  env "PULSAR_AUTH_TOKEN" = "" ->
  env "TLS_TRUST_CERTS_FILE_PATH" = "" ->
  env "TLS_ALLOW_INSECURE_CONNECTION" = "" ->
  raw !! "token" = None ->
  raw !! "tls_trust_certs_file_path" = None ->
  raw !! "tls_allow_insecure_connection" = None ->
  schema.Data env raw = Some d ->
  (token d = ""
   ∧ tls_trust_certs_file_path d = ""
   ∧ tls_allow_insecure_connection d = false)
  ∧ ∀ (World Client : Type)
      (pulsar_New : Config -> World -> result Client * World)
      (tfVersion : string) (rt : Runtime),
      Forall (fun call =>
                Token call.1 = ""
                ∧ TLSTrustCertsFilePath call.1 = ""
                ∧ TLSAllowInsecureConnection call.1 = false)
             (attempted rt (providerConfigure pulsar_New d tfVersion rt).2).
Proof.
  intros Et Ec Ei Rt Rc Ri HD.
  assert (Hd : token d = ""
               ∧ tls_trust_certs_file_path d = ""
               ∧ tls_allow_insecure_connection d = false).
  { unfold schema.Data in HD.
    rewrite (readString_unset env raw "token" "PULSAR_AUTH_TOKEN")
      in HD by (done || (vm_compute; reflexivity)).
    rewrite (readString_unset env raw "tls_trust_certs_file_path"
                              "TLS_TRUST_CERTS_FILE_PATH")
      in HD by (done || (vm_compute; reflexivity)).
    rewrite (readBool_unset env raw Ri Ei) in HD.
    destruct (schema.readString env raw "web_service_url"); [|discriminate].
    destruct (schema.readString env raw "api_version"); [|discriminate].
    cbn in HD. injection HD as <-. done. }
  split; [exact Hd|].
  intros World Client pulsar_New tfVersion rt.
  destruct Hd as (Ht & Hc & Hi).
  eapply Forall_impl; [apply attempted_configFor|].
  intros call [version ->]. cbn. done.
Qed.

(** ** The claims on concrete runs *)

(** What [url.Parse] says of a few endpoints. *)
Example Parse_examples :
  url.Parse "https://pulsar.example.com:8080" = None
  ∧ url.Parse "" = None
  ∧ url.Parse "not a url" = None
  ∧ url.Parse "localhost:8080" = None
  ∧ url.Parse "http://pulsar example:8080"
    = Some (url_Error "parse" "http://pulsar example:8080"
                      (InvalidHostError " "))
  ∧ url.Parse "127.0.0.1:8080"
    = Some (url_Error "parse" "127.0.0.1:8080"
              (errorString "first path segment in URL cannot contain colon"))
  ∧ url.Parse "http://broker/%zz"
    = Some (url_Error "parse" "http://broker/%zz" (EscapeError "%zz")).
Proof. vm_compute. repeat split. Qed.

Lemma providerConfigure_registry_witness :
  ∃ meta rt' c1 c2 c3,
    providerConfigure (mock.New mock.never)
      (mock.data "https://pulsar.example.com:8080") "1.5.0" mock.start
    = (Ok meta, rt')
    ∧ size meta = 3
    ∧ dom meta = ({[V1; V2; V3]} : gset APIVersion)
    ∧ meta !! V1 = Some c1 ∧ meta !! V2 = Some c2 ∧ meta !! V3 = Some c3
    ∧ NoDup [c1; c2; c3].
Proof.
  pose proof (providerConfigure_registry (mock.New mock.never)
                (mock.data "https://pulsar.example.com:8080") "1.5.0"
                mock.start _ _ eq_refl)
    as (Hsize & Hdom & _ & c1 & c2 & c3 & L1 & L2 & L3 & _ & _ & Hdistinct).
  eexists _, _, c1, c2, c3. split; [reflexivity|].
  repeat split; try assumption.
  apply (Hdistinct (fun cl => PulsarAPIVersion (mock.config cl))).
  intros c w cl w'. unfold mock.New, mock.never. intros [= <- _]. reflexivity.
Defined.

Lemma providerConfigure_fail_fast_witness :
  (providerConfigure (mock.New (mock.only V2 mock.refused))
     (mock.data "https://pulsar.example.com:8080") "1.5.0" mock.start).1
  = Err (fmt_Errorf "failed to create pulsar client: %w" mock.refused).
Proof.
  refine (proj1 (providerConfigure_fail_fast
                   (mock.New (mock.only V2 mock.refused))
                   (mock.data "https://pulsar.example.com:8080") "1.5.0"
                   mock.start
                   (configFor (mock.data "https://pulsar.example.com:8080") V2)
                   mock.refused _)).
  apply list_elem_of_further, list_elem_of_here.
Defined.

Lemma constructions_in_order_witness :
  map (fun call => PulsarAPIVersion call.1)
      (attempted mock.start
         (providerConfigure (mock.New mock.never)
            (mock.data "https://pulsar.example.com:8080") "1.5.0"
            mock.start).2)
  = [V1; V2; V3]
  ∧ map (fun call => PulsarAPIVersion call.1)
        (attempted mock.start
           (providerConfigure (mock.New (mock.only V2 mock.refused))
              (mock.data "https://pulsar.example.com:8080") "1.5.0"
              mock.start).2)
    = [V1; V2].
Proof.
  split.
  - destruct (constructions_in_order (mock.New mock.never)
                (mock.data "https://pulsar.example.com:8080") "1.5.0"
                mock.start) as (n & _ & Hmap & _ & Hok & _).
    rewrite Hmap, (Hok eq_refl). reflexivity.
  - destruct (constructions_in_order (mock.New (mock.only V2 mock.refused))
                (mock.data "https://pulsar.example.com:8080") "1.5.0"
                mock.start) as (n & _ & Hmap & _).
    rewrite Hmap.
    destruct n as [|[|[|[|n]]]]; try reflexivity;
      apply (f_equal length) in Hmap; discriminate Hmap.
Defined.

Lemma invalid_endpoint_rejected_witness :
  url.Parse "http://pulsar example:8080"
  = Some (url_Error "parse" "http://pulsar example:8080" (InvalidHostError " "))
  ∧ rejected_at_gate (mock.New mock.never) "1.5.0"
      (mock.data "http://pulsar example:8080") mock.start.
Proof.
  split; [vm_compute; reflexivity|].
  refine (proj2 (invalid_endpoint_rejected (mock.New mock.never) "1.5.0"
                   (mock.data "http://pulsar example:8080") mock.start
                   (url_Error "parse" "http://pulsar example:8080"
                              (InvalidHostError " ")) _)).
  vm_compute; reflexivity.
Defined.

(** C4, as stated, fails: with the endpoint [not a url] and a backend
    that accepts every configuration, the pass is not stopped at the
    gate. *)
Lemma not_a_url_not_rejected :
  ¬ rejected_at_gate (mock.New mock.never) ""
      (mock.data "not a url") mock.start.
Proof.
  intros (err & H & _). vm_compute in H. discriminate H.
Qed.

(** C6, as stated, fails: a backend that fails at [V1] and one that fails
    at [V2], with the same cause, give the same error, so nothing read
    from the error can tell the version. *)
Lemma error_does_not_identify_version :
  ¬ ∃ identify, identifies_version identify.
Proof.
  intros (identify & H).
  destruct (H nat mock.Client (mock.New (mock.only V1 mock.refused))
              (mock.data "") "" mock.start
              (configFor (mock.data "") V1) mock.refused)
    as (e1 & E1 & I1); [apply list_elem_of_here|].
  destruct (H nat mock.Client (mock.New (mock.only V2 mock.refused))
              (mock.data "") "" mock.start
              (configFor (mock.data "") V2) mock.refused)
    as (e2 & E2 & I2); [apply list_elem_of_further, list_elem_of_here|].
  vm_compute in E1, E2. injection E1 as <-. injection E2 as <-.
  cbn in I1, I2. congruence.
Qed.

Lemma construction_error_wraps_cause_witness :
  ∃ err,
    (providerConfigure (mock.New (mock.only V3 mock.refused))
       (mock.data "https://pulsar.example.com:8080") "" mock.start).1
    = Err err
    ∧ Unwrap err = Some mock.refused
    ∧ err = wrapError "failed to create pulsar client: %w" mock.refused.
Proof.
  refine (construction_error_wraps_cause
            (mock.New (mock.only V3 mock.refused))
            (mock.data "https://pulsar.example.com:8080") "" mock.start
            (configFor (mock.data "https://pulsar.example.com:8080") V3)
            mock.refused _).
  apply list_elem_of_further, list_elem_of_further, list_elem_of_here.
Defined.

(** C7, as stated, fails: with [PULSAR_AUTH_TOKEN] set in the
    environment, a provider block that gives the endpoint only is read
    with that token. *)
Lemma environment_token_is_used :
  ¬ omitted_options_are_zero mock.token_env
      (mock.block "https://pulsar.example.com:8080").
Proof.
  intros H.
  destruct (H eq_refl eq_refl eq_refl
              {| web_service_url := "https://pulsar.example.com:8080";
                 token := "s3cr3t";
                 api_version := "1";
                 tls_trust_certs_file_path := "";
                 tls_allow_insecure_connection := false |}
              V1) as (Htok & _); [vm_compute; reflexivity|].
  discriminate Htok.
Qed.

Lemma omitted_options_default_witness :
  schema.Data mock.no_env (mock.block "https://pulsar.example.com:8080")
  = Some (mock.data "https://pulsar.example.com:8080")
  ∧ Forall (fun call =>
              Token call.1 = ""
              ∧ TLSTrustCertsFilePath call.1 = ""
              ∧ TLSAllowInsecureConnection call.1 = false)
           (attempted mock.start
              (providerConfigure (mock.New mock.never)
                 (mock.data "https://pulsar.example.com:8080") ""
                 mock.start).2).
Proof.
  split; [vm_compute; reflexivity|].
  refine (proj2 (omitted_options_default mock.no_env
                   (mock.block "https://pulsar.example.com:8080")
                   (mock.data "https://pulsar.example.com:8080")
                   eq_refl eq_refl eq_refl eq_refl eq_refl eq_refl _)
                nat mock.Client (mock.New mock.never) "" mock.start).
  vm_compute; reflexivity.
Defined.

Lemma configure_twice_independent_witness :
  length
    (constructions
       (ConfigureContextFunc (mock.New mock.never) ""
          (mock.data "https://pulsar.example.com:8080")
          (ConfigureContextFunc (mock.New mock.never) ""
             (mock.data "https://pulsar.example.com:8080") mock.start).2).2)
  = 6.
Proof.
  set (d := mock.data "https://pulsar.example.com:8080").
  set (run1 := ConfigureContextFunc (mock.New mock.never) "" d mock.start).
  set (run2 := ConfigureContextFunc (mock.New mock.never) "" d run1.2).
  destruct (configure_twice_independent (mock.New mock.never) "" "" d
              mock.start run1.2 run2.2
              (default ∅ run1.1.1) (default ∅ run2.1.1))
    as (a1 & a2 & a3 & b1 & b2 & b3 & Ha & Hb & Hc & _);
    [vm_compute; reflexivity | vm_compute; reflexivity |].
  rewrite Hc, Ha, Hb. reflexivity.
Defined.

Lemma api_version_and_tfVersion_ignored_witness :
  ConfigureContextFunc (mock.New mock.never) ""
    (mock.data "https://pulsar.example.com:8080") mock.start
  = ConfigureContextFunc (mock.New mock.never) "1.5.0"
      {| web_service_url := "https://pulsar.example.com:8080";
         token := "";
         api_version := "3";
         tls_trust_certs_file_path := "";
         tls_allow_insecure_connection := false |} mock.start.
Proof.
  exact (proj2 (proj2 (api_version_and_tfVersion_ignored
                         (mock.New mock.never)
                         (mock.data "https://pulsar.example.com:8080")
                         {| web_service_url := "https://pulsar.example.com:8080";
                            token := "";
                            api_version := "3";
                            tls_trust_certs_file_path := "";
                            tls_allow_insecure_connection := false |}
                         "" "1.5.0" mock.start
                         eq_refl eq_refl eq_refl eq_refl))).
Defined.

Lemma accepted_endpoint_passes_gate_witness :
  schema.Data mock.no_env (mock.block "") = Some (mock.data "")
  ∧ web_service_url (mock.data "") = ""
  ∧ validatePulsarConfig (mock.data "") = None.
Proof.
  split; [vm_compute; reflexivity|].
  split; [reflexivity|].
  exact (proj1 (accepted_endpoint_passes_gate (mock.data "")
                  (or_introl eq_refl))).
Defined.

(** * Further properties of the provider *)

Section configure_facts.

Context {World Client : Type}.
Variable pulsar_New : Config -> World -> result Client * World.

Implicit Types (d : ResourceData) (rt : @Runtime World Client).

(** The loop appends to the record of calls and threads the backend's
    world through them, from any map and any list of versions. *)
Lemma build_effects versions url tok certs ins :
  ∀ (meta : gmap APIVersion Client) rt res rt',
    build pulsar_New versions url tok certs ins meta rt = (res, rt') ->
    constructions rt' = constructions rt ++ attempted rt rt'
    ∧ calls pulsar_New (backend rt) (attempted rt rt') (backend rt').
Proof.
  intros meta rt res rt' H.
  apply build_built in H as (tr & Hcs & _ & Hcalls & _).
  by rewrite (attempted_app _ _ _ Hcs).
Qed.

(** X1. The entry point hands back a registry exactly when [url.Parse]
    accepts the endpoint and the pass made three constructor calls that
    all succeeded. *)
Theorem configure_succeeds_iff TerraformVersion d rt :
  is_Some (ConfigureContextFunc pulsar_New TerraformVersion d rt).1.1
  ↔ url.Parse (web_service_url d) = None
    ∧ length (attempted rt
                (ConfigureContextFunc pulsar_New TerraformVersion d rt).2) = 3
    ∧ Forall (fun call => is_Ok call.2 = true)
             (attempted rt
                (ConfigureContextFunc pulsar_New TerraformVersion d rt).2).
Proof.
  destruct (validatePulsarConfig d) as [gate|] eqn:Hv.
  - assert (Hp : url.Parse (web_service_url d) ≠ None).
    { intros Hp. apply validatePulsarConfig_None in Hp. congruence. }
    unfold ConfigureContextFunc. rewrite Hv. cbn [fst snd]. split.
    + intros [? [=]].
    + intros [? _]. done.
  - rewrite (ConfigureContextFunc_pass_state _ _ _ _ Hv).
    rewrite (ConfigureContextFunc_pass _ _ _ _ Hv).
    apply validatePulsarConfig_None in Hv.
    destruct (providerConfigure pulsar_New d "" rt) as [res rt'] eqn:E.
    apply providerConfigure_built in E as (_ & _ & Hb).
    apply built_three_inv in Hb
      as [(e & Htr & ->) | [(c1 & e & Htr & ->) | [(c1 & c2 & e & Htr & ->)
         | (c1 & c2 & c3 & Htr & ->)]]];
      cbn [fst snd]; rewrite Htr; split.
    + intros [? [=]].
    + intros (_ & [=] & _).
    + intros [? [=]].
    + intros (_ & [=] & _).
    + intros [? [=]].
    + intros (_ & _ & HF). rewrite !Forall_cons in HF.
      destruct HF as (_ & _ & [=] & _).
    + intros _. repeat split; try done. by repeat constructor.
    + intros _. eauto.
Qed.

(** X2. A pass ends in one of three ways: a registry and no diagnostic;
    no registry and the single invalid-endpoint diagnostic, when
    [url.Parse] rejected the endpoint; or no registry and the single
    failed-to-create diagnostic around the cause of a failed constructor
    call.  A registry never comes with a diagnostic. *)
Theorem configure_outcomes TerraformVersion d rt :
  (∃ reg,
      (ConfigureContextFunc pulsar_New TerraformVersion d rt).1
      = (Some reg, []))
  ∨ (∃ err,
        url.Parse (web_service_url d) = Some err
        ∧ (ConfigureContextFunc pulsar_New TerraformVersion d rt).1
          = (None,
             [ErrorDiagnostic
                (wrapError "ERROR_PULSAR_CONFIG_INVALID_WEB_SERVICE_URL: %w"
                           err)]))
  ∨ (∃ c cause,
        url.Parse (web_service_url d) = None
        ∧ (c, Err cause)
            ∈ attempted rt
                (ConfigureContextFunc pulsar_New TerraformVersion d rt).2
        ∧ (ConfigureContextFunc pulsar_New TerraformVersion d rt).1
          = (None,
             [ErrorDiagnostic
                (wrapError "failed to create pulsar client: %w" cause)])).
Proof.
  destruct (url.Parse (web_service_url d)) as [err|] eqn:Hp.
  - right; left. exists err. split; [done|].
    unfold ConfigureContextFunc, validatePulsarConfig. by rewrite Hp.
  - apply validatePulsarConfig_None in Hp as Hv.
    rewrite (ConfigureContextFunc_pass_state _ _ _ _ Hv).
    rewrite (ConfigureContextFunc_pass _ _ _ _ Hv).
    destruct (providerConfigure pulsar_New d "" rt) as [res rt'] eqn:E.
    apply providerConfigure_built in E as (_ & _ & Hb).
    apply built_three_inv in Hb
      as [(e & Htr & ->) | [(c1 & e & Htr & ->) | [(c1 & c2 & e & Htr & ->)
         | (c1 & c2 & c3 & Htr & ->)]]];
      cbn [fst snd]; rewrite Htr.
    + right; right. exists (configFor d V1), e. repeat split.
      apply list_elem_of_here.
    + right; right. exists (configFor d V2), e. repeat split.
      apply list_elem_of_further, list_elem_of_here.
    + right; right. exists (configFor d V3), e. repeat split.
      apply list_elem_of_further, list_elem_of_further, list_elem_of_here.
    + left. eauto.
Qed.

(** X3. With an endpoint that [url.Parse] accepts and a backend whose
    constructor succeeds on the three configurations whatever the world,
    the pass returns a registry of three clients and no diagnostic. *)
Theorem configure_succeeds_on_reliable_backend TerraformVersion d rt :
  url.Parse (web_service_url d) = None ->
  (∀ version w, is_Ok (pulsar_New (configFor d version) w).1 = true) ->
  ∃ reg,
    (ConfigureContextFunc pulsar_New TerraformVersion d rt).1 = (Some reg, [])
    ∧ size reg = 3.
Proof.
  intros Hp Hok. apply validatePulsarConfig_None in Hp as Hv.
  rewrite (ConfigureContextFunc_pass _ _ _ _ Hv).
  destruct (providerConfigure pulsar_New d "" rt) as [res rt'] eqn:E.
  apply providerConfigure_built in E as (_ & Hcalls & Hb).
  assert (Hfail : ∀ w tr w' version (e : error),
             ¬ calls pulsar_New w ((configFor d version, Err e) :: tr) w').
  { intros w tr w' version e Hc.
    inversion Hc as [|? ? ? ? ? ? E1 _]; subst.
    specialize (Hok version w). rewrite E1 in Hok. discriminate Hok. }
  apply built_three_inv in Hb
    as [(e & Htr & ->) | [(c1 & e & Htr & ->) | [(c1 & c2 & e & Htr & ->)
       | (c1 & c2 & c3 & Htr & ->)]]];
    rewrite Htr in Hcalls.
  - by apply Hfail in Hcalls.
  - inversion Hcalls as [|? ? ? ? ? ? _ K1]; subst. by apply Hfail in K1.
  - inversion Hcalls as [|? ? ? ? ? ? _ K1]; subst.
    inversion K1 as [|? ? ? ? ? ? _ K2]; subst. by apply Hfail in K2.
  - eexists. split; [reflexivity|].
    rewrite !map_size_insert_None by by simplify_map_eq.
    by rewrite map_size_empty.
Qed.

(** X4. A pass writes the line [Started] once when the gate lets the
    configuration through, and writes nothing when the gate stops it;
    constructor failures do not add lines. *)
Theorem configure_log TerraformVersion d rt :
  logged (ConfigureContextFunc pulsar_New TerraformVersion d rt).2
  = logged rt
    ++ match url.Parse (web_service_url d) with
       | None => ["Started"]
       | Some _ => []
       end.
Proof.
  destruct (url.Parse (web_service_url d)) as [err|] eqn:Hp.
  - unfold ConfigureContextFunc, validatePulsarConfig. rewrite Hp.
    cbn. by rewrite app_nil_r.
  - apply validatePulsarConfig_None in Hp as Hv.
    rewrite (ConfigureContextFunc_pass_state _ _ _ _ Hv).
    destruct (providerConfigure pulsar_New d "" rt) as [res rt'] eqn:E.
    apply providerConfigure_built in E as (Hl & _). cbn [snd]. exact Hl.
Qed.

(** X5. The gate is in the entry point only.  On an endpoint that
    [url.Parse] rejects, the entry point makes no constructor call, while
    [providerConfigure] called on the same data still calls the
    constructor, first for [V1] with the rejected endpoint. *)
Theorem providerConfigure_does_not_validate TerraformVersion tfVersion d rt err :
  url.Parse (web_service_url d) = Some err ->
  attempted rt (ConfigureContextFunc pulsar_New TerraformVersion d rt).2 = []
  ∧ ∃ c r tr,
      attempted rt (providerConfigure pulsar_New d tfVersion rt).2
      = (c, r) :: tr
      ∧ WebServiceURL c = web_service_url d
      ∧ PulsarAPIVersion c = V1.
Proof.
  intros Hp. split.
  - unfold ConfigureContextFunc, validatePulsarConfig. rewrite Hp.
    apply attempted_same.
  - destruct (first_attempt pulsar_New d tfVersion rt) as (r & tr & E).
    exists (configFor d V1), r, tr. done.
Qed.

(** X6. A pass only ever appends to the record of constructor calls, and
    the backend's world at the end is the one reached by making exactly
    the recorded calls in order; nothing is undone when a later call
    fails. *)
Theorem configure_effects TerraformVersion d rt :
  constructions (ConfigureContextFunc pulsar_New TerraformVersion d rt).2
  = constructions rt
    ++ attempted rt (ConfigureContextFunc pulsar_New TerraformVersion d rt).2
  ∧ calls pulsar_New (backend rt)
      (attempted rt (ConfigureContextFunc pulsar_New TerraformVersion d rt).2)
      (backend (ConfigureContextFunc pulsar_New TerraformVersion d rt).2).
Proof.
  destruct (validatePulsarConfig d) as [gate|] eqn:Hv.
  - unfold ConfigureContextFunc. rewrite Hv. cbn [fst snd].
    rewrite attempted_same, app_nil_r. split; [done | constructor].
  - rewrite (ConfigureContextFunc_pass_state _ _ _ _ Hv).
    destruct (providerConfigure pulsar_New d "" rt) as [res rt'] eqn:E.
    unfold providerConfigure in E. apply build_effects in E as [Hc Hcalls].
    cbn [fst snd]. split.
    + rewrite Hc. reflexivity.
    + exact Hcalls.
Qed.

(** X7. The loop invariant, for any list of versions and any starting
    map: when the loop finishes, the map holds the starting keys and the
    versions gone through, entries under other versions are untouched,
    and one constructor call was made per version in the list. *)
Theorem build_success_domain versions url tok certs ins :
  ∀ (meta : gmap APIVersion Client) rt reg rt',
    build pulsar_New versions url tok certs ins meta rt = (Ok reg, rt') ->
    dom reg = dom meta ∪ list_to_set versions
    ∧ length (attempted rt rt') = length versions
    ∧ ∀ version, version ∉ versions -> reg !! version = meta !! version.
Proof.
  intros meta rt reg rt' H.
  apply build_built in H as (tr & Hcs & _ & _ & Hb).
  rewrite (attempted_app _ _ _ Hcs). clear Hcs rt rt'.
  remember (Ok reg) as res eqn:Hres.
  induction Hb as [meta|version versions meta cause
                  |version versions meta client tr res Hb IH].
  - injection Hres as ->. repeat split; try done.
    cbn [list_to_set]. by rewrite union_empty_r_L.
  - discriminate Hres.
  - destruct (IH Hres) as (Hdom & Hlen & Hother).
    split; [|split].
    + rewrite Hdom, dom_insert_L. cbn [list_to_set].
      rewrite (union_comm_L {[version]} (dom meta)).
      by rewrite union_assoc_L.
    + cbn. by rewrite Hlen.
    + intros v Hv. apply not_elem_of_cons in Hv as [Hne Hv].
      rewrite (Hother v Hv). by rewrite lookup_insert_ne.
Qed.

End configure_facts.

(** * From the provider block to the configuration *)

(** The value read for a key whose schema entry is known. *)
Lemma read_entry env raw k s :
  Provider_Schema !! k = Some s ->
  schema.read env raw k
  = match (match raw !! k with
           | Some v => Some v
           | None => schema.DefaultValue env s
           end) with
    | Some v => schema.stringToPrimitive (schema.weakString v) (Type_ s)
    | None => if Required s then None else Some (schema.Zero (Type_ s))
    end.
Proof. intros Hs. unfold schema.read. by rewrite Hs. Qed.

(** [schema.Data] succeeds exactly when its five reads do. *)
Lemma Data_Some env raw d :
  schema.Data env raw = Some d
  <-> schema.readString env raw "web_service_url" = Some (web_service_url d)
      ∧ schema.readString env raw "token" = Some (token d)
      ∧ schema.readString env raw "api_version" = Some (api_version d)
      ∧ schema.readString env raw "tls_trust_certs_file_path"
        = Some (tls_trust_certs_file_path d)
      ∧ schema.readBool env raw "tls_allow_insecure_connection"
        = Some (tls_allow_insecure_connection d).
Proof.
  unfold schema.Data.
  destruct (schema.readString env raw "web_service_url") as [u|];
    [|cbn; split; [discriminate | intros [[=] _]]].
  destruct (schema.readString env raw "token") as [t|];
    [|cbn; split; [discriminate | intros (_ & [=] & _)]].
  destruct (schema.readString env raw "api_version") as [a|];
    [|cbn; split; [discriminate | intros (_ & _ & [=] & _)]].
  destruct (schema.readString env raw "tls_trust_certs_file_path") as [p|];
    [|cbn; split; [discriminate | intros (_ & _ & _ & [=] & _)]].
  destruct (schema.readBool env raw "tls_allow_insecure_connection") as [b|];
    [|cbn; split; [discriminate | intros (_ & _ & _ & _ & [=])]].
  cbn. split.
  - intros [= <-]. done.
  - destruct d. cbn. intros ([= ->] & [= ->] & [= ->] & [= ->] & [= ->]). done.
Qed.

(** A string option written in the block reads as written. *)
Lemma readString_block env raw k s v :
  Provider_Schema !! k = Some s ->
  Type_ s = TypeString ->
  raw !! k = Some (VString v) ->
  schema.readString env raw k = Some v.
Proof.
  intros Hs Ht Hr. unfold schema.readString.
  rewrite (read_entry _ _ _ _ Hs), Hr, Ht. reflexivity.
Qed.

(** A string option left out, whose default is an environment variable,
    reads as that variable unless the option is required and the variable
    empty. *)
Lemma readString_env env raw k name required :
  Provider_Schema !! k
  = Some {| Type_ := TypeString; Required := required;
            Optional := negb required; Default := None;
            DefaultFunc := Some (EnvDefaultFunc name None);
            Deprecated := "" |} ->
  raw !! k = None ->
  schema.readString env raw k
  = if String.eqb (env name) "" && required then None else Some (env name).
Proof.
  intros Hs Hr. unfold schema.readString.
  rewrite (read_entry _ _ _ _ Hs), Hr. unfold schema.DefaultValue. cbn.
  destruct (String.eqb (env name) "") eqn:E; cbn.
  - apply String.eqb_eq in E. rewrite E. by destruct required.
  - reflexivity.
Qed.

(** X8. What the user writes in the provider block wins over the
    environment: a string option given in the block is read as given, and
    the insecure flag given as a boolean is read as given, whatever the
    variables [WEB_SERVICE_URL], [PULSAR_AUTH_TOKEN],
    [TLS_TRUST_CERTS_FILE_PATH] and [TLS_ALLOW_INSECURE_CONNECTION]
    hold. *)
Theorem block_overrides_environment env raw d :
  schema.Data env raw = Some d ->
  (∀ v, raw !! "web_service_url" = Some (VString v) -> web_service_url d = v)
  ∧ (∀ v, raw !! "token" = Some (VString v) -> token d = v)
  ∧ (∀ v, raw !! "api_version" = Some (VString v) -> api_version d = v)
  ∧ (∀ v, raw !! "tls_trust_certs_file_path" = Some (VString v) ->
          tls_trust_certs_file_path d = v)
  ∧ (∀ b, raw !! "tls_allow_insecure_connection" = Some (VBool b) ->
          tls_allow_insecure_connection d = b).
Proof.
  intros HD. apply Data_Some in HD as (Hu & Ht & Ha & Hp & Hb).
  repeat split; intros v Hr.
  - erewrite readString_block in Hu; [| schema_entry | reflexivity | exact Hr].
    congruence.
  - erewrite readString_block in Ht; [| schema_entry | reflexivity | exact Hr].
    congruence.
  - erewrite readString_block in Ha; [| schema_entry | reflexivity | exact Hr].
    congruence.
  - erewrite readString_block in Hp; [| schema_entry | reflexivity | exact Hr].
    congruence.
  - unfold schema.readBool in Hb.
    erewrite read_entry in Hb by schema_entry.
    rewrite Hr in Hb. destruct v; cbn in Hb; congruence.
Qed.

(** X9. What is read for an option the block leaves out: the endpoint,
    the token and the trust path are the values of their environment
    variables (so empty when the variable is unset, which for the
    endpoint cannot happen: it is required); [api_version] is [1]
    whatever the environment; the insecure flag is [false] when its
    variable is unset and otherwise the boolean its text spells. *)
Theorem omitted_options_read_environment env raw d :
  schema.Data env raw = Some d ->
  (raw !! "web_service_url" = None ->
   web_service_url d = env "WEB_SERVICE_URL" ∧ env "WEB_SERVICE_URL" ≠ "")
  ∧ (raw !! "token" = None -> token d = env "PULSAR_AUTH_TOKEN")
  ∧ (raw !! "api_version" = None -> api_version d = "1")
  ∧ (raw !! "tls_trust_certs_file_path" = None ->
     tls_trust_certs_file_path d = env "TLS_TRUST_CERTS_FILE_PATH")
  ∧ (raw !! "tls_allow_insecure_connection" = None ->
     if String.eqb (env "TLS_ALLOW_INSECURE_CONNECTION") ""
     then tls_allow_insecure_connection d = false
     else schema.ParseBool (env "TLS_ALLOW_INSECURE_CONNECTION")
          = Some (tls_allow_insecure_connection d)).
Proof.
  intros HD. apply Data_Some in HD as (Hu & Ht & Ha & Hp & Hb).
  repeat apply conj; intros Hr.
  - rewrite (readString_env env raw "web_service_url" "WEB_SERVICE_URL" true)
      in Hu by (schema_entry || done).
    destruct (String.eqb (env "WEB_SERVICE_URL") "") eqn:E; cbn in Hu;
      [discriminate|].
    apply String.eqb_neq in E. split; congruence.
  - rewrite (readString_env env raw "token" "PULSAR_AUTH_TOKEN" false)
      in Ht by (schema_entry || done).
    rewrite andb_false_r in Ht. congruence.
  - unfold schema.readString in Ha.
    erewrite read_entry in Ha by schema_entry.
    rewrite Hr in Ha. cbn in Ha. congruence.
  - rewrite (readString_env env raw "tls_trust_certs_file_path"
               "TLS_TRUST_CERTS_FILE_PATH" false)
      in Hp by (schema_entry || done).
    rewrite andb_false_r in Hp. congruence.
  - unfold schema.readBool in Hb.
    erewrite read_entry in Hb by schema_entry.
    rewrite Hr in Hb. unfold schema.DefaultValue in Hb. cbn in Hb.
    destruct (String.eqb (env "TLS_ALLOW_INSECURE_CONNECTION") "") eqn:E.
    + cbn in Hb. congruence.
    + cbn in Hb. rewrite E in Hb.
      destruct (schema.ParseBool (env "TLS_ALLOW_INSECURE_CONNECTION"));
        cbn in Hb; congruence.
Qed.

(** X10. Two provider blocks never reach the provider: one that gives no
    endpoint while [WEB_SERVICE_URL] is unset, and one that gives no
    insecure flag while [TLS_ALLOW_INSECURE_CONNECTION] holds a text that
    spells no boolean. *)
Theorem refused_blocks env raw :
  (raw !! "web_service_url" = None ∧ env "WEB_SERVICE_URL" = "")
  ∨ (raw !! "tls_allow_insecure_connection" = None
     ∧ env "TLS_ALLOW_INSECURE_CONNECTION" ≠ ""
     ∧ schema.ParseBool (env "TLS_ALLOW_INSECURE_CONNECTION") = None) ->
  schema.Data env raw = None.
Proof.
  intros [[Hr He] | (Hr & He & Hp)].
  - unfold schema.Data.
    rewrite (readString_env env raw "web_service_url" "WEB_SERVICE_URL" true)
      by (schema_entry || done).
    rewrite He. reflexivity.
  - destruct (schema.Data env raw) as [d|] eqn:HD; [|done].
    apply Data_Some in HD as (_ & _ & _ & _ & Hb).
    unfold schema.readBool in Hb.
    erewrite read_entry in Hb by schema_entry.
    rewrite Hr in Hb. unfold schema.DefaultValue in Hb. cbn in Hb.
    apply String.eqb_neq in He. rewrite He in Hb. cbn in Hb.
    rewrite He, Hp in Hb. discriminate Hb.
Qed.

(** An optional string option is always readable. *)
Lemma readString_optional env raw k s :
  Provider_Schema !! k = Some s ->
  Type_ s = TypeString ->
  Required s = false ->
  is_Some (schema.readString env raw k).
Proof.
  intros Hs Ht Hq. unfold schema.readString.
  rewrite (read_entry _ _ _ _ Hs), Ht, Hq.
  destruct (match raw !! k with
            | Some v => Some v
            | None => schema.DefaultValue env s
            end); cbn; eauto.
Qed.

(** X11. A provider block is accepted as soon as the endpoint is given in
    the block or by [WEB_SERVICE_URL], and the insecure flag is given as a
    boolean or left out with [TLS_ALLOW_INSECURE_CONNECTION] unset. *)
Theorem sufficient_blocks_accepted env raw :
  is_Some (raw !! "web_service_url") ∨ env "WEB_SERVICE_URL" ≠ "" ->
  (∃ b, raw !! "tls_allow_insecure_connection" = Some (VBool b))
  ∨ (raw !! "tls_allow_insecure_connection" = None
     ∧ env "TLS_ALLOW_INSECURE_CONNECTION" = "") ->
  is_Some (schema.Data env raw).
Proof.
  intros Hu Hb.
  assert (Eu : is_Some (schema.readString env raw "web_service_url")).
  { unfold schema.readString. erewrite read_entry by schema_entry.
    destruct Hu as [[v Hv] | He].
    - rewrite Hv. cbn. eauto.
    - destruct (raw !! "web_service_url"); cbn; [eauto|].
      unfold schema.DefaultValue. cbn.
      apply String.eqb_neq in He. rewrite He. cbn. eauto. }
  assert (Et : is_Some (schema.readString env raw "token"))
    by (eapply readString_optional; [schema_entry | done | done]).
  assert (Ea : is_Some (schema.readString env raw "api_version"))
    by (eapply readString_optional; [schema_entry | done | done]).
  assert (Ep : is_Some (schema.readString env raw "tls_trust_certs_file_path"))
    by (eapply readString_optional; [schema_entry | done | done]).
  assert (Ei : is_Some
                 (schema.readBool env raw "tls_allow_insecure_connection")).
  { unfold schema.readBool. erewrite read_entry by schema_entry.
    destruct Hb as [[b Hb] | [Hb He]]; rewrite Hb.
    - destruct b; cbn; eauto.
    - unfold schema.DefaultValue. cbn. rewrite He. cbn. eauto. }
  destruct Eu as [u Eu], Et as [t Et], Ea as [a Ea], Ep as [p Ep],
           Ei as [i Ei].
  exists {| web_service_url := u; token := t; api_version := a;
            tls_trust_certs_file_path := p;
            tls_allow_insecure_connection := i |}.
  apply Data_Some. done.
Qed.

(** X12. From the block to the backend: the endpoint and the token
    written in the provider block are the endpoint and the token of every
    configuration the entry point hands to the constructor, whatever the
    environment holds and however the pass ends. *)
Theorem block_credentials_reach_constructor env raw d endpoint tok :
  schema.Data env raw = Some d ->
  raw !! "web_service_url" = Some (VString endpoint) ->
  raw !! "token" = Some (VString tok) ->
  ∀ (World Client : Type)
    (pulsar_New : Config -> World -> result Client * World)
    (TerraformVersion : string) (rt : Runtime),
    Forall (fun call => WebServiceURL call.1 = endpoint ∧ Token call.1 = tok)
           (attempted rt
              (ConfigureContextFunc pulsar_New TerraformVersion d rt).2).
Proof.
  intros HD Hu Ht World Client pulsar_New TerraformVersion rt.
  apply Data_Some in HD as (Eu & Et & _).
  erewrite readString_block in Eu; [| schema_entry | reflexivity | exact Hu].
  erewrite readString_block in Et; [| schema_entry | reflexivity | exact Ht].
  injection Eu as Eu. injection Et as Et.
  destruct (validatePulsarConfig d) as [gate|] eqn:Hv.
  - unfold ConfigureContextFunc. rewrite Hv. cbn [snd].
    rewrite attempted_same. constructor.
  - rewrite (ConfigureContextFunc_pass_state _ _ _ _ Hv).
    eapply Forall_impl; [apply attempted_configFor|].
    intros call [version ->]. cbn. done.
Qed.

(** * Which endpoints the gate lets through *)

Lemma Index_absent (p : ascii -> bool) x s :
  every p s = true -> p x = false ->
  gostrings.Index s (String x EmptyString) = None.
Proof.
  intros Hs Hx. induction s as [|c s IH]; [reflexivity|].
  cbn in Hs. apply andb_true_iff in Hs as [Hc Hs].
  cbn. destruct (ascii_dec x c) as [->|_]; [congruence|].
  by rewrite (IH Hs).
Qed.

Lemma prefix_absent (p : ascii -> bool) x sep s :
  every p s = true -> p x = false ->
  String.prefix (String x sep) s = false.
Proof.
  intros Hs Hx. destruct s as [|c s]; [reflexivity|].
  cbn in Hs. apply andb_true_iff in Hs as [Hc _].
  cbn. destruct (ascii_dec x c) as [->|_]; [congruence | reflexivity].
Qed.

Lemma CountByte_absent (p : ascii -> bool) x s :
  every p s = true -> p x = false -> gostrings.CountByte s x = 0.
Proof.
  intros Hs Hx. induction s as [|c s IH]; [reflexivity|].
  cbn in Hs. apply andb_true_iff in Hs as [Hc Hs].
  cbn. rewrite (IH Hs).
  destruct (Ascii.eqb c x) eqn:E; [|reflexivity].
  apply Ascii.eqb_eq in E. congruence.
Qed.

(** What a plain byte is not. *)
Lemma plain_not_control c : plain c = true -> control c = false.
Proof.
  destruct c as [[] [] [] [] [] [] [] []]; vm_compute; congruence.
Qed.

Lemma plain_not_colon c : plain c = true -> Ascii.eqb c ":" = false.
Proof.
  destruct (Ascii.eqb c ":") eqn:E; [|done].
  apply Ascii.eqb_eq in E as ->. vm_compute. congruence.
Qed.

Lemma plain_not_percent c : plain c = true -> Ascii.eqb c "%" = false.
Proof.
  destruct (Ascii.eqb c "%") eqn:E; [|done].
  apply Ascii.eqb_eq in E as ->. vm_compute. congruence.
Qed.

Lemma plain_no_control_bytes s :
  every plain s = true -> url.stringContainsCTLByte s = false.
Proof.
  induction s as [|c s IH]; [reflexivity|].
  cbn [every url.stringContainsCTLByte]. intros [Hc Hs]%andb_true_iff.
  apply plain_not_control in Hc. unfold control in Hc.
  rewrite Hc. cbn [orb]. auto.
Qed.

Lemma plain_no_scheme s :
  every plain s = true ->
  ∀ i rawURL, url.getScheme_from i s rawURL = inl ("", rawURL).
Proof.
  induction s as [|c s IH]; [reflexivity|].
  cbn [every]. intros [Hc Hs]%andb_true_iff i rawURL. cbn [url.getScheme_from].
  destruct (url.isLower c || url.isUpper c); [by apply IH|].
  destruct (url.isDigit c || url.oneOf c "+-.");
    [destruct (i =? 0)%nat; [reflexivity | by apply IH]|].
  by rewrite (plain_not_colon c Hc).
Qed.

Lemma plain_unescape s :
  every plain s = true -> url.unescape s url.encodePath = None.
Proof.
  induction s as [|c s IH]; [reflexivity|].
  cbn [every]. intros [Hc Hs]%andb_true_iff. cbn [url.unescape].
  rewrite (plain_not_percent c Hc). cbn.
  destruct (Ascii.eqb c "+"); by apply IH.
Qed.

(** X13. The gate asks for no scheme, host or port: it lets through
    every endpoint made of letters, digits and spaces only, the empty one
    included. *)
Theorem gate_accepts_plain_words d :
  every plain (web_service_url d) = true ->
  validatePulsarConfig d = None.
Proof.
  intros Hs. apply validatePulsarConfig_None.
  set (s := web_service_url d) in *.
  assert (Hno : ∀ x, plain x = false ->
                     gostrings.Index s (String x EmptyString) = None)
    by (intros x Hx; by apply (Index_absent plain)).
  unfold url.Parse, gostrings.Cut.
  rewrite (Hno "#"%char) by reflexivity.
  assert (Hp : url.parse s false = None); [|by rewrite Hp].
  unfold url.parse.
  rewrite (plain_no_control_bytes s Hs), andb_false_r.
  destruct (String.eqb s "*") eqn:Estar; [reflexivity|].
  unfold url.getScheme. rewrite (plain_no_scheme s Hs).
  cbn [gostrings.ToLower].
  rewrite (CountByte_absent plain "?" s Hs) by reflexivity.
  cbn [Nat.eqb]. rewrite (andb_false_r (gostrings.HasSuffix s "?")).
  unfold gostrings.Cut, gostrings.Contains.
  rewrite (Hno "?"%char) by reflexivity. cbn [fst].
  unfold gostrings.HasPrefix.
  rewrite (prefix_absent plain "/" "" s Hs) by reflexivity.
  rewrite (prefix_absent plain "/" "/" s Hs) by reflexivity.
  rewrite (Hno "/"%char) by reflexivity. cbn [fst].
  rewrite (Hno ":"%char) by reflexivity. cbn.
  rewrite andb_false_r. by apply plain_unescape.
Qed.

Lemma gate_accepts_plain_words_witness :
  every plain "pulsar broker 1" = true
  ∧ validatePulsarConfig (mock.data "pulsar broker 1") = None.
Proof.
  split; [reflexivity|].
  exact (gate_accepts_plain_words (mock.data "pulsar broker 1") eq_refl).
Defined.

(** The part of an endpoint before its first [#] keeps a leading byte
    that is not [#]. *)
Lemma Cut_fragment_cons x s :
  x ≠ "#"%char ->
  (gostrings.Cut (String x s) "#").1.1
  = String x (gostrings.Cut s "#").1.1.
Proof.
  intros Hx. unfold gostrings.Cut. cbn [gostrings.Index String.prefix].
  destruct (ascii_dec "#" x) as [<-|_]; [done|].
  destruct (gostrings.Index s "#") as [i|]; reflexivity.
Qed.

Lemma control_before_fragment a c b :
  every (fun x => negb (Ascii.eqb x "#")) a = true ->
  control c = true ->
  url.stringContainsCTLByte
    (gostrings.Cut (a ++ String c b)%string "#").1.1 = true.
Proof.
  intros Ha Hc.
  assert (Hne : c ≠ "#"%char) by (intros ->; vm_compute in Hc; congruence).
  induction a as [|x a IH].
  - change (url.stringContainsCTLByte
              (gostrings.Cut (String c b) "#").1.1 = true).
    rewrite (Cut_fragment_cons c b Hne). cbn [url.stringContainsCTLByte].
    unfold control in Hc. rewrite Hc. reflexivity.
  - cbn in Ha. apply andb_true_iff in Ha as [Hx Ha].
    change (url.stringContainsCTLByte
              (gostrings.Cut (String x (a ++ String c b)%string) "#").1.1
            = true).
    rewrite Cut_fragment_cons.
    + cbn [url.stringContainsCTLByte]. rewrite (IH Ha). apply orb_true_r.
    + intros ->. vm_compute in Hx. congruence.
Qed.

(** X14. The gate stops every endpoint that has an ASCII control byte
    before its first [#], with the parse error for an invalid control
    character. *)
Theorem gate_rejects_control_bytes d a c b :
  web_service_url d = (a ++ String c b)%string ->
  every (fun x => negb (Ascii.eqb x "#")) a = true ->
  control c = true ->
  ∃ u,
    validatePulsarConfig d
    = Some (wrapError "ERROR_PULSAR_CONFIG_INVALID_WEB_SERVICE_URL: %w"
              (url_Error "parse" u
                 (errorString "net/url: invalid control character in URL"))).
Proof.
  intros Hs Ha Hc.
  pose proof (control_before_fragment a c b Ha Hc) as Hctl.
  unfold validatePulsarConfig, url.Parse. rewrite Hs.
  destruct (gostrings.Cut (a ++ String c b)%string "#") as [[u frag] found].
  cbn [fst] in Hctl. unfold url.parse. rewrite Hctl. eauto.
Qed.

Lemma gate_rejects_control_bytes_witness :
  ∃ u,
    validatePulsarConfig
      (mock.data ("http://pulsar" ++ String (ascii_of_N 9) ":8080")%string)
    = Some (wrapError "ERROR_PULSAR_CONFIG_INVALID_WEB_SERVICE_URL: %w"
              (url_Error "parse" u
                 (errorString "net/url: invalid control character in URL"))).
Proof.
  exact (gate_rejects_control_bytes
           (mock.data ("http://pulsar" ++ String (ascii_of_N 9) ":8080")%string)
           "http://pulsar" (ascii_of_N 9) ":8080" eq_refl eq_refl eq_refl).
Defined.

(** X15. The gate stops every endpoint that starts with a colon, such as
    a bare [:8080]. *)
Theorem gate_rejects_leading_colon d s :
  web_service_url d = String ":" s ->
  is_Some (validatePulsarConfig d).
Proof.
  intros Hs.
  assert (Hp : is_Some (url.Parse (String ":" s))).
  { unfold url.Parse.
    pose proof (Cut_fragment_cons ":" s ltac:(discriminate)) as Hcut.
    destruct (gostrings.Cut (String ":" s) "#") as [[u frag] found].
    cbn [fst] in Hcut. subst u.
    assert (Hparse : is_Some
                       (url.parse (String ":" (gostrings.Cut s "#").1.1) false));
      [|by destruct Hparse as [e ->]; eauto].
    unfold url.parse.
    destruct (url.stringContainsCTLByte _); [eauto|].
    cbn. eauto. }
  unfold validatePulsarConfig. rewrite Hs.
  destruct Hp as [e ->]. eauto.
Qed.

Lemma gate_rejects_leading_colon_witness :
  is_Some (validatePulsarConfig (mock.data ":8080")).
Proof.
  exact (gate_rejects_leading_colon (mock.data ":8080") "8080" eq_refl).
Defined.

(** * The descriptions *)

Lemma init_last resourceConfigsAttribute :
  descriptions_of.init resourceConfigsAttribute
  = <[resourceConfigsAttribute := "Configuration encoded as JSON"]>
      (foldl descriptions_of.assign ∅ descriptions_of.literal).
Proof. unfold descriptions_of.init. by rewrite foldl_app. Qed.

(** X17. Every option of the provider schema has a description that is
    not empty, whatever the value of [resourceConfigsAttribute]. *)
Theorem provider_options_described resourceConfigsAttribute k :
  is_Some (Provider_Schema !! k) ->
  descriptions_of.index (descriptions_of.init resourceConfigsAttribute) k ≠ "".
Proof.
  intros [s Hs]. rewrite init_last. unfold descriptions_of.index.
  destruct (decide (resourceConfigsAttribute = k)) as [->|Hne].
  { by rewrite lookup_insert_eq. }
  rewrite lookup_insert_ne by done.
  unfold Provider_Schema in Hs.
  repeat (apply lookup_insert_Some in Hs as [[<- _] | [_ Hs]];
          [vm_compute; discriminate|]).
  by rewrite lookup_empty in Hs.
Qed.

Lemma provider_options_described_witness :
  descriptions_of.index (descriptions_of.init "configs") "token" ≠ "".
Proof.
  apply (provider_options_described "configs" "token").
  vm_compute. eauto.
Defined.

(** * The further properties on concrete runs *)

Lemma configure_succeeds_on_reliable_backend_witness :
  ∃ reg,
    (ConfigureContextFunc (mock.New mock.never) "1.5.0"
       (mock.data "https://pulsar.example.com:8080") mock.start).1
    = (Some reg, [])
    ∧ size reg = 3.
Proof.
  apply (configure_succeeds_on_reliable_backend (mock.New mock.never) "1.5.0"
           (mock.data "https://pulsar.example.com:8080") mock.start).
  - vm_compute; reflexivity.
  - intros version w. reflexivity.
Defined.

Lemma providerConfigure_does_not_validate_witness :
  attempted mock.start
    (ConfigureContextFunc (mock.New mock.never) ""
       (mock.data "http://pulsar example:8080") mock.start).2 = []
  ∧ ∃ c r tr,
      attempted mock.start
        (providerConfigure (mock.New mock.never)
           (mock.data "http://pulsar example:8080") "" mock.start).2
      = (c, r) :: tr
      ∧ WebServiceURL c = "http://pulsar example:8080"
      ∧ PulsarAPIVersion c = V1.
Proof.
  apply (providerConfigure_does_not_validate (mock.New mock.never) "" ""
           (mock.data "http://pulsar example:8080") mock.start
           (url_Error "parse" "http://pulsar example:8080"
                      (InvalidHostError " "))).
  vm_compute; reflexivity.
Defined.

Lemma build_success_domain_witness :
  ∃ reg rt',
    build (mock.New mock.never) [V3; V1] "https://pulsar.example.com:8080"
          "" "" false ∅ mock.start = (Ok reg, rt')
    ∧ dom reg = (∅ ∪ list_to_set [V3; V1] : gset APIVersion)
    ∧ reg !! V2 = None.
Proof.
  eexists _, _. split; [reflexivity|].
  pose proof (build_success_domain (mock.New mock.never) [V3; V1]
                "https://pulsar.example.com:8080" "" "" false ∅ mock.start
                _ _ eq_refl) as (Hdom & _ & Hother).
  split.
  - rewrite Hdom. by rewrite dom_empty_L.
  - rewrite Hother; [apply lookup_empty|].
    rewrite !not_elem_of_cons. repeat split; try discriminate.
    apply not_elem_of_nil.
Defined.

Lemma block_overrides_environment_witness :
  token {| web_service_url := "https://pulsar.example.com:8080";
           token := "from-block"; api_version := "1";
           tls_trust_certs_file_path := "";
           tls_allow_insecure_connection := false |} = "from-block"
  ∧ schema.Data mock.token_env both_block
    = Some {| web_service_url := "https://pulsar.example.com:8080";
              token := "from-block"; api_version := "1";
              tls_trust_certs_file_path := "";
              tls_allow_insecure_connection := false |}.
Proof.
  assert (HD : schema.Data mock.token_env both_block
               = Some {| web_service_url := "https://pulsar.example.com:8080";
                         token := "from-block"; api_version := "1";
                         tls_trust_certs_file_path := "";
                         tls_allow_insecure_connection := false |})
    by (vm_compute; reflexivity).
  split; [|exact HD].
  destruct (block_overrides_environment mock.token_env both_block _ HD)
    as (_ & Ht & _).
  apply Ht. vm_compute; reflexivity.
Defined.

Lemma omitted_options_read_environment_witness :
  token {| web_service_url := "https://pulsar.example.com:8080";
           token := "s3cr3t"; api_version := "1";
           tls_trust_certs_file_path := "";
           tls_allow_insecure_connection := false |}
  = mock.token_env "PULSAR_AUTH_TOKEN".
Proof.
  assert (HD : schema.Data mock.token_env
                 (mock.block "https://pulsar.example.com:8080")
               = Some {| web_service_url := "https://pulsar.example.com:8080";
                         token := "s3cr3t"; api_version := "1";
                         tls_trust_certs_file_path := "";
                         tls_allow_insecure_connection := false |})
    by (vm_compute; reflexivity).
  destruct (omitted_options_read_environment mock.token_env _ _ HD)
    as (_ & Ht & _).
  apply Ht. vm_compute; reflexivity.
Defined.

Lemma refused_blocks_witness : schema.Data mock.no_env ∅ = None.
Proof.
  apply (refused_blocks mock.no_env ∅). left.
  split; reflexivity.
Defined.

Lemma sufficient_blocks_accepted_witness :
  is_Some (schema.Data mock.no_env
             (mock.block "https://pulsar.example.com:8080")).
Proof.
  apply (sufficient_blocks_accepted mock.no_env
           (mock.block "https://pulsar.example.com:8080")).
  - left. vm_compute. eauto.
  - right. split; [vm_compute; reflexivity | reflexivity].
Defined.

Lemma block_credentials_reach_constructor_witness :
  Forall (fun call =>
            WebServiceURL call.1 = "https://pulsar.example.com:8080"
            ∧ Token call.1 = "from-block")
         (attempted mock.start
            (ConfigureContextFunc (mock.New mock.never) ""
               {| web_service_url := "https://pulsar.example.com:8080";
                  token := "from-block"; api_version := "1";
                  tls_trust_certs_file_path := "";
                  tls_allow_insecure_connection := false |} mock.start).2).
Proof.
  apply (block_credentials_reach_constructor mock.token_env both_block
           {| web_service_url := "https://pulsar.example.com:8080";
              token := "from-block"; api_version := "1";
              tls_trust_certs_file_path := "";
              tls_allow_insecure_connection := false |}
           "https://pulsar.example.com:8080" "from-block");
    vm_compute; reflexivity.
Defined.
